(** * zrnt, package [chain]: the hot/cold chain router, the stitched
    iterator and the block/slot storage key (eth2/chain/chain.go).

    The two regions of the chain (the unfinalized hot chain and the
    finalized cold chain) are interfaces in the source.  The router is
    embedded as a program over the calls of these two interfaces; an
    interpreter runs such a program against an implementation of both
    regions, threads the state of the regions through the calls and
    records which calls were made. *)

From Stdlib Require Import ZArith List Lia String Bool.
From Stdlib Require DecimalString.
From coqutil Require Import Byte Word.LittleEndianList.
Import ListNotations.
Local Open Scope Z_scope.

(* ===================================================================== *)
(** ** Types of package beacon used by the chain package *)
(* ===================================================================== *)

Module beacon.

(** [type Root [32]byte] *)
Definition Root : Type := list byte.

(** [type Slot uint64], [type Epoch uint64] *)
Definition Slot : Type := Z.
Definition Epoch : Type := Z.

Definition uint64_max : Z := 2 ^ 64 - 1.

(** Arithmetic on [uint64] wraps around. *)
Definition wrap64 (z : Z) : Z := z mod 2 ^ 64.

(** [a == b] on arrays of bytes compares element by element. *)
Fixpoint Root_eqb (a b : Root) : bool :=
  match a, b with
  | [], [] => true
  | x :: a', y :: b' => Byte.eqb x y && Root_eqb a' b'
  | _, _ => false
  end.

Module Checkpoint.

(** [type Checkpoint struct { Epoch Epoch; Root Root }] *)
Record t : Type := { Epoch : Epoch; Root : Root }.

End Checkpoint.

End beacon.

(** [type error]: an error value is represented by the message that
    [Error()] yields, which is what the verb [%v] prints. *)
Definition error : Type := string.

(* ===================================================================== *)
(** ** Slices of bytes: [copy] and [binary.LittleEndian.PutUint64] *)
(* ===================================================================== *)

Module bytes.

(** The zero value of [[n]byte]. *)
Definition zero (n : nat) : list byte := repeat Byte.x00 n.

(** [arr[i] = b].  Go panics when [i] is out of range; [set] then
    leaves the array as it is, which does not happen in [Bytes], where
    the array has 40 elements and the indices are 32 to 39. *)
Fixpoint set (arr : list byte) (i : nat) (b : byte) : list byte :=
  match arr, i with
  | [], _ => []
  | _ :: tl, O => b :: tl
  | x :: tl, S i' => x :: set tl i' b
  end.

(** [copy(arr[lo:hi], src)]: copies [min(hi-lo, len(src))] elements
    into the array, starting at index [lo]. *)
Definition copy (arr : list byte) (lo hi : nat) (src : list byte) : list byte :=
  let n := Nat.min (hi - lo) (List.length src) in
  firstn lo arr ++ firstn n src ++ skipn (lo + n) arr.

(** [binary.LittleEndian.PutUint64(arr[lo:lo+8], v)]:
    [b[0] = byte(v); b[1] = byte(v >> 8); ...; b[7] = byte(v >> 56)],
    where [byte(x)] keeps the low eight bits. *)
Definition PutUint64 (arr : list byte) (lo : nat) (v : Z) : list byte :=
  let arr := set arr (lo + 0) (byte.of_Z v) in
  let arr := set arr (lo + 1) (byte.of_Z (Z.shiftr v 8)) in
  let arr := set arr (lo + 2) (byte.of_Z (Z.shiftr v 16)) in
  let arr := set arr (lo + 3) (byte.of_Z (Z.shiftr v 24)) in
  let arr := set arr (lo + 4) (byte.of_Z (Z.shiftr v 32)) in
  let arr := set arr (lo + 5) (byte.of_Z (Z.shiftr v 40)) in
  let arr := set arr (lo + 6) (byte.of_Z (Z.shiftr v 48)) in
  let arr := set arr (lo + 7) (byte.of_Z (Z.shiftr v 56)) in
  arr.

End bytes.

(* ===================================================================== *)
(** ** BlockSlotKey *)
(* ===================================================================== *)

Module BlockSlotKey.

Record t : Type := { Slot : beacon.Slot; Root : beacon.Root }.

(** [func (key BlockSlotKey) Bytes() (out [40]byte)] *)
Definition Bytes (key : t) : list byte :=
  let out := bytes.zero 40 in
  let out := bytes.copy out 0 32 (Root key) in
  let out := bytes.PutUint64 out 32 (Slot key) in
  out.

(** The values of the Go type: a root of 32 bytes and a slot that is a
    [uint64]. *)
Definition wf (key : t) : Prop :=
  List.length (Root key) = 32%nat /\ 0 <= Slot key <= beacon.uint64_max.

(** The encoding in the words of the specification: the 32 bytes of
    the root followed by the slot as 8 bytes, least significant byte
    first. *)
Definition spec_encoding (key : t) : list byte :=
  Root key ++ le_split 8 (Slot key).

End BlockSlotKey.


(* ===================================================================== *)
(** ** ChainEntry, ChainIter *)
(* ===================================================================== *)

Module ChainEntry.

(** The observable part of [type ChainEntry interface].  The two methods
    that load data lazily, [EpochsContext(ctx)] and [State(ctx)], are
    read by nothing in this file and are left out. *)
Record t : Type := {
  Slot : beacon.Slot;
  BlockRoot : beacon.Root;
  ParentRoot : beacon.Root;
  IsEmpty : bool;
  StateRoot : beacon.Root
}.

End ChainEntry.

(** [*HotEntry] (hot.go) is a chain entry of the hot region; the
    constructor of the router reads its slot. *)
Definition HotEntry : Type := ChainEntry.t.

(** A Go result pair [(entry ChainEntry, err error)]: either component
    may be [nil]. *)
Definition Result : Type := (option ChainEntry.t * option error)%type.

Module ChainIter.

(** [type ChainIter interface { Start() Slot; End() Slot;
    Entry(slot Slot) (entry ChainEntry, err error) }] *)
Record t : Type := {
  Start : beacon.Slot;
  End : beacon.Slot;
  Entry : beacon.Slot -> Result
}.

End ChainIter.

(* ===================================================================== *)
(** ** FullChainIter *)
(* ===================================================================== *)

Module FullChainIter.

Record t : Type := { HotIter : ChainIter.t; ColdIter : ChainIter.t }.

(** [func (fi *FullChainIter) Start() Slot] *)
Definition Start (fi : t) : beacon.Slot := ChainIter.Start (ColdIter fi).

(** [func (fi *FullChainIter) End() Slot] *)
Definition End (fi : t) : beacon.Slot := ChainIter.End (HotIter fi).

(** [func (fi *FullChainIter) Entry(slot Slot) (entry ChainEntry, err error)] *)
Definition Entry (fi : t) (slot : beacon.Slot) : Result :=
  if slot <? ChainIter.End (ColdIter fi)
  then ChainIter.Entry (ColdIter fi) slot
  else ChainIter.Entry (HotIter fi) slot.

(** [*FullChainIter] used as a [ChainIter]. *)
Definition as_ChainIter (fi : t) : ChainIter.t :=
  {| ChainIter.Start := Start fi;
     ChainIter.End := End fi;
     ChainIter.Entry := Entry fi |}.

End FullChainIter.

(* ===================================================================== *)
(** ** The interfaces of the two regions, as calls *)
(* ===================================================================== *)

Module HotChain.

(** The methods of [HotChain] that the router calls, indexed by the type
    of what they return.  The lookups return an entry and an error, as
    the router uses them ([hotEntry, hotErr := ...]). *)
Inductive call : Type -> Type :=
| ByStateRoot (root : beacon.Root) : call Result
| ByBlockRoot (root : beacon.Root) : call Result
| Closest (fromBlockRoot : beacon.Root) (toSlot : beacon.Slot) : call Result
| BySlot (slot : beacon.Slot) : call Result
| IsAncestor (root ofRoot : beacon.Root) : call (bool * bool)%type
| Finalized : call beacon.Checkpoint.t
| Iter : call (ChainIter.t + error)%type.

(** An implementation of the interface over a state [W] of the regions. *)
Definition impl (W : Type) : Type := forall X : Type, call X -> W -> X * W.

End HotChain.

Module ColdChain.

Inductive call : Type -> Type :=
| ByStateRoot (root : beacon.Root) : call Result
| ByBlockRoot (root : beacon.Root) : call Result
| Closest (fromBlockRoot : beacon.Root) (toSlot : beacon.Slot) : call Result
| BySlot (slot : beacon.Slot) : call Result
| IsAncestor (root ofRoot : beacon.Root) : call (bool * bool)%type
| Iter : call (ChainIter.t + error)%type
| OnFinalizedEntry (entry : HotEntry) : call (option error).

Definition impl (W : Type) : Type := forall X : Type, call X -> W -> X * W.

End ColdChain.

(** Code that talks to the two regions: it returns, or calls a method of
    one region and goes on with what the method returned. *)
Inductive Prog (A : Type) : Type :=
| Ret (a : A)
| Hot {X : Type} (c : HotChain.call X) (k : X -> Prog A)
| Cold {X : Type} (c : ColdChain.call X) (k : X -> Prog A).

Arguments Ret {A} a.
Arguments Hot {A X} c k.
Arguments Cold {A X} c k.

Fixpoint bind {A B : Type} (p : Prog A) (f : A -> Prog B) : Prog B :=
  match p with
  | Ret a => f a
  | Hot c k => Hot c (fun x => bind (k x) f)
  | Cold c k => Cold c (fun x => bind (k x) f)
  end.

Definition hot {X : Type} (c : HotChain.call X) : Prog X := Hot c Ret.
Definition cold {X : Type} (c : ColdChain.call X) : Prog X := Cold c Ret.

Declare Scope prog_scope.
Delimit Scope prog_scope with prog.
Notation "x <- c ;; k" := (bind c (fun x => k))
  (at level 61, c at next level, right associativity) : prog_scope.
Notation "' pat <- c ;; k" := (bind c (fun x => match x with pat => k end))
  (at level 61, pat pattern, c at next level, right associativity) : prog_scope.

(** [fmt.Errorf("could not find chain entry in hot or cold chain. "+
    "Hot: %v, Cold: %v", hotErr, coldErr)] *)
Definition not_found_error (hotErr coldErr : error) : error :=
  ("could not find chain entry in hot or cold chain. Hot: "
     ++ hotErr ++ ", Cold: " ++ coldErr)%string.

(* ===================================================================== *)
(** ** HotColdChain: the router *)
(* ===================================================================== *)

Module HotColdChain.

(** [type HotColdChain struct { HotChain; ColdChain; Spec *beacon.Spec }]:
    the two embedded interface values and the configuration. *)
Record t (W Spec : Type) : Type := {
  HotChain : HotChain.impl W;
  ColdChain : ColdChain.impl W;
  Spec : Spec
}.

Arguments HotChain {W Spec} _ _ _ _.
Arguments ColdChain {W Spec} _ _ _ _.

Local Open Scope prog_scope.

(** [func (hc *HotColdChain) ByStateRoot(root Root) (ChainEntry, error)] *)
Definition ByStateRoot (root : beacon.Root) : Prog Result :=
  '(hotEntry, hotErr) <- hot (HotChain.ByStateRoot root) ;;
  match hotErr with
  | Some hotErr =>
      '(coldEntry, coldErr) <- cold (ColdChain.ByStateRoot root) ;;
      match coldErr with
      | Some coldErr => Ret (None, Some (not_found_error hotErr coldErr))
      | None => Ret (coldEntry, None)
      end
  | None => Ret (hotEntry, None)
  end.

(** [func (hc *HotColdChain) ByBlockRoot(root Root) (ChainEntry, error)] *)
Definition ByBlockRoot (root : beacon.Root) : Prog Result :=
  '(hotEntry, hotErr) <- hot (HotChain.ByBlockRoot root) ;;
  match hotErr with
  | Some hotErr =>
      '(coldEntry, coldErr) <- cold (ColdChain.ByBlockRoot root) ;;
      match coldErr with
      | Some coldErr => Ret (None, Some (not_found_error hotErr coldErr))
      | None => Ret (coldEntry, None)
      end
  | None => Ret (hotEntry, None)
  end.

(** [func (hc *HotColdChain) Closest(fromBlockRoot Root, toSlot Slot)
    (ChainEntry, error)] *)
Definition Closest (fromBlockRoot : beacon.Root) (toSlot : beacon.Slot)
  : Prog Result :=
  '(hotEntry, hotErr) <- hot (HotChain.Closest fromBlockRoot toSlot) ;;
  match hotErr with
  | Some hotErr =>
      '(coldEntry, coldErr) <- cold (ColdChain.Closest fromBlockRoot toSlot) ;;
      match coldErr with
      | Some coldErr => Ret (None, Some (not_found_error hotErr coldErr))
      | None => Ret (coldEntry, None)
      end
  | None => Ret (hotEntry, None)
  end.



(** [func (hc *HotColdChain) IsAncestor(root Root, ofRoot Root)
    (unknown bool, isAncestor bool)] *)
Definition IsAncestor (root ofRoot : beacon.Root) : Prog (bool * bool) :=
  if beacon.Root_eqb root ofRoot then Ret (false, false)
  else
    '(_, err) <- cold (ColdChain.ByBlockRoot root) ;;
    match err with
    | None => cold (ColdChain.IsAncestor root ofRoot)
    | Some _ =>
        '(_, err) <- cold (ColdChain.ByBlockRoot ofRoot) ;;
        match err with
        | None =>
            fin <- hot HotChain.Finalized ;;
            hot (HotChain.IsAncestor root (beacon.Checkpoint.Root fin))
        | Some _ => hot (HotChain.IsAncestor root ofRoot)
        end
    end.

(** [func (hc *HotColdChain) BySlot(slot Slot) (ChainEntry, error)] *)
Definition BySlot (slot : beacon.Slot) : Prog Result :=
  '(hotEntry, hotErr) <- hot (HotChain.BySlot slot) ;;
  match hotErr with
  | Some hotErr =>
      '(coldEntry, coldErr) <- cold (ColdChain.BySlot slot) ;;
      match coldErr with
      | Some coldErr => Ret (None, Some (not_found_error hotErr coldErr))
      | None => Ret (coldEntry, None)
      end
  | None => Ret (hotEntry, None)
  end.

(** [func (hc *HotColdChain) Iter() (ChainIter, error)] *)
Definition Iter : Prog (ChainIter.t + error) :=
  r <- hot HotChain.Iter ;;
  match r with
  | inr err => Ret (inr ("cannot iter hot part: " ++ err)%string)
  | inl hotIt =>
      r <- cold ColdChain.Iter ;;
      match r with
      | inr err => Ret (inr ("cannot iter cold part: " ++ err)%string)
      | inl coldIt =>
          Ret (inl (FullChainIter.as_ChainIter
                      {| FullChainIter.HotIter := hotIt;
                         FullChainIter.ColdIter := coldIt |}))
      end
  end.

(** [type BlockSinkFn func(entry *HotEntry, canonical bool) error] *)
Definition BlockSinkFn : Type := HotEntry -> bool -> Prog (option error).

(** The function literal that [NewHotColdChain] hands to the hot chain:
    [if canonical { return coldCh.OnFinalizedEntry(entry) }; return nil] *)
Definition finalization_sink : BlockSinkFn :=
  fun entry canonical =>
    if canonical then cold (ColdChain.OnFinalizedEntry entry)
    else Ret None.

End HotColdChain.

(** [func NewHotColdChain(anchor *HotEntry, spec *beacon.Spec,
    stateDB states.DB)], which returns a pointer to a [HotColdChain] or
    an error.  The constructors of the two regions live in hot.go and
    cold.go and are taken as given. *)
Section Construction.

Context {W Spec StatesDB : Type}.
Variable NewFinalizedChain : beacon.Slot -> Spec -> StatesDB -> ColdChain.impl W.
Variable NewUnfinalizedChain :
  HotEntry -> HotColdChain.BlockSinkFn -> Spec -> HotChain.impl W + error.

Definition NewHotColdChain (anchor : HotEntry) (spec : Spec) (stateDB : StatesDB)
  : HotColdChain.t W Spec + error :=
  let coldCh := NewFinalizedChain (ChainEntry.Slot anchor) spec stateDB in
  match NewUnfinalizedChain anchor HotColdChain.finalization_sink spec with
  | inr err => inr err
  | inl hotCh =>
      inl {| HotColdChain.HotChain := hotCh;
             HotColdChain.ColdChain := coldCh;
             HotColdChain.Spec := spec |}
  end.

End Construction.

(* ===================================================================== *)
(** ** Running a program against the two regions *)
(* ===================================================================== *)

(** One call made to a region. *)
Inductive Event : Type :=
| HotCall {X : Type} (c : HotChain.call X)
| ColdCall {X : Type} (c : ColdChain.call X).

Definition is_cold_call (e : Event) : bool :=
  match e with ColdCall _ => true | HotCall _ => false end.

Definition is_hot_call (e : Event) : bool :=
  match e with HotCall _ => true | ColdCall _ => false end.

(** [run hc p w]: what [p] returns when the regions of [hc] start in
    state [w], the state they end in, and the calls made, in order. *)
Fixpoint run {W Spec A : Type} (hc : HotColdChain.t W Spec) (p : Prog A) (w : W)
  : A * W * list Event :=
  match p with
  | Ret a => (a, w, [])
  | Hot c k =>
      let '(x, w1) := HotColdChain.HotChain hc _ c w in
      let '(a, w2, tr) := run hc (k x) w1 in
      (a, w2, HotCall c :: tr)
  | Cold c k =>
      let '(x, w1) := HotColdChain.ColdChain hc _ c w in
      let '(a, w2, tr) := run hc (k x) w1 in
      (a, w2, ColdCall c :: tr)
  end.

Definition result {W Spec A : Type} (hc : HotColdChain.t W Spec) (p : Prog A)
  (w : W) : A := fst (fst (run hc p w)).

Definition final {W Spec A : Type} (hc : HotColdChain.t W Spec) (p : Prog A)
  (w : W) : W := snd (fst (run hc p w)).

Definition trace {W Spec A : Type} (hc : HotColdChain.t W Spec) (p : Prog A)
  (w : W) : list Event := snd (run hc p w).

(** The four lookups of the router, and the call each of them makes to
    the hot and to the cold region. *)
Inductive Query : Type :=
| QByStateRoot (root : beacon.Root)
| QByBlockRoot (root : beacon.Root)
| QClosest (fromBlockRoot : beacon.Root) (toSlot : beacon.Slot)
| QBySlot (slot : beacon.Slot).

Definition router (q : Query) : Prog Result :=
  match q with
  | QByStateRoot root => HotColdChain.ByStateRoot root
  | QByBlockRoot root => HotColdChain.ByBlockRoot root
  | QClosest fromBlockRoot toSlot => HotColdChain.Closest fromBlockRoot toSlot
  | QBySlot slot => HotColdChain.BySlot slot
  end.

Definition hot_call (q : Query) : HotChain.call Result :=
  match q with
  | QByStateRoot root => HotChain.ByStateRoot root
  | QByBlockRoot root => HotChain.ByBlockRoot root
  | QClosest fromBlockRoot toSlot => HotChain.Closest fromBlockRoot toSlot
  | QBySlot slot => HotChain.BySlot slot
  end.

Definition cold_call (q : Query) : ColdChain.call Result :=
  match q with
  | QByStateRoot root => ColdChain.ByStateRoot root
  | QByBlockRoot root => ColdChain.ByBlockRoot root
  | QClosest fromBlockRoot toSlot => ColdChain.Closest fromBlockRoot toSlot
  | QBySlot slot => ColdChain.BySlot slot
  end.

(** The shape shared by the four lookups: ask the hot region, on an
    error ask the cold region, on a second error report both. *)
Definition fallback (h : HotChain.call Result) (c : ColdChain.call Result)
  : Prog Result :=
  ('(hotEntry, hotErr) <- hot h ;;
   match hotErr with
   | Some hotErr =>
       '(coldEntry, coldErr) <- cold c ;;
       match coldErr with
       | Some coldErr => Ret (None, Some (not_found_error hotErr coldErr))
       | None => Ret (coldEntry, None)
       end
   | None => Ret (hotEntry, None)
   end)%prog.

(** [ColdChain.ByBlockRoot(root)] returns no error in state [w]. *)
Definition cold_resolves {W Spec : Type} (hc : HotColdChain.t W Spec)
  (root : beacon.Root) (w : W) : bool :=
  match snd (fst (HotColdChain.ColdChain hc _ (ColdChain.ByBlockRoot root) w)) with
  | None => true
  | Some _ => false
  end.

(** [HotChain.ByBlockRoot(root)] returns no error in state [w]. *)
Definition hot_resolves {W Spec : Type} (hc : HotColdChain.t W Spec)
  (root : beacon.Root) (w : W) : bool :=
  match snd (fst (HotColdChain.HotChain hc _ (HotChain.ByBlockRoot root) w)) with
  | None => true
  | Some _ => false
  end.

(** The state of the regions after [ColdChain.ByBlockRoot(root)]. *)
Definition after_cold_probe {W Spec : Type} (hc : HotColdChain.t W Spec)
  (root : beacon.Root) (w : W) : W :=
  snd (HotColdChain.ColdChain hc _ (ColdChain.ByBlockRoot root) w).

Local Open Scope prog_scope.

(** The branches of [IsAncestor] after the test [root == ofRoot], each
    as the straight line of calls it makes. *)
Definition cold_branch (root ofRoot : beacon.Root) : Prog (bool * bool) :=
  _ <- cold (ColdChain.ByBlockRoot root) ;;
  cold (ColdChain.IsAncestor root ofRoot).

Definition bridge_branch (root ofRoot : beacon.Root) : Prog (bool * bool) :=
  _ <- cold (ColdChain.ByBlockRoot root) ;;
  _ <- cold (ColdChain.ByBlockRoot ofRoot) ;;
  fin <- hot HotChain.Finalized ;;
  hot (HotChain.IsAncestor root (beacon.Checkpoint.Root fin)).

Definition hot_branch (root ofRoot : beacon.Root) : Prog (bool * bool) :=
  _ <- cold (ColdChain.ByBlockRoot root) ;;
  _ <- cold (ColdChain.ByBlockRoot ofRoot) ;;
  hot (HotChain.IsAncestor root ofRoot).

Local Close Scope prog_scope.

(** [contains s sub]: the text [sub] occurs in [s]. *)
Definition contains (s sub : string) : Prop :=
  exists pre post : string, s = (pre ++ sub ++ post)%string.

(* ===================================================================== *)
(** ** The two regions, from their description *)
(* ===================================================================== *)

Module Regions.

(** Modelled from the spec: the state held by the cold region (cold.go)
    and the hot region (hot.go), whose code is not among the sources.
    The cold region is "a strict, gapless, linear sequence indexed by
    slot", kept here as its first slot and its entries in slot order.
    The hot region holds the entries "since the last finalized anchor",
    linked by their parent roots, kept here in slot order with the
    anchor first; [finalized] is what [Finalized()] reports. *)
Record t : Type := {
  cold_start : beacon.Slot;
  cold_entries : list ChainEntry.t;
  hot_entries : list ChainEntry.t;
  finalized : beacon.Checkpoint.t
}.

(** Modelled from the spec: the slot at which the cold sequence ends,
    "the region boundary". *)
Definition boundary (w : t) : beacon.Slot :=
  beacon.wrap64 (cold_start w + Z.of_nat (List.length (cold_entries w))).

(** Modelled from the spec: a lookup in one region either finds an
    entry or fails with an error of that region. *)
Definition lookup (f : ChainEntry.t -> bool) (l : list ChainEntry.t)
  (msg : error) : Result :=
  match find f l with
  | Some e => (Some e, None)
  | None => (None, Some msg)
  end.

(** Modelled from the spec: the keys of the lookups.  An entry of a
    slot without block repeats the root of the last block, so a block is
    found by its root among the entries that are not empty. *)
Definition has_state_root (root : beacon.Root) (e : ChainEntry.t) : bool :=
  beacon.Root_eqb (ChainEntry.StateRoot e) root.

Definition is_block (root : beacon.Root) (e : ChainEntry.t) : bool :=
  beacon.Root_eqb (ChainEntry.BlockRoot e) root && negb (ChainEntry.IsEmpty e).

Definition at_slot (slot : beacon.Slot) (e : ChainEntry.t) : bool :=
  ChainEntry.Slot e =? slot.

(** Modelled from the spec: [Closest] "returns the entry within the
    subtree rooted at fromBlockRoot with the greatest slot <= toSlot,
    excluding any block after fromBlockRoot", and fails if there is no
    candidate. *)
Definition closest (l : list ChainEntry.t) (fromBlockRoot : beacon.Root)
  (toSlot : beacon.Slot) (msg : error) : Result :=
  lookup
    (fun e => beacon.Root_eqb (ChainEntry.BlockRoot e) fromBlockRoot
              && (ChainEntry.Slot e <=? toSlot))
    (rev l) msg.

(** Modelled from the spec: the parent-link walk.  [builds_on n l a r]
    follows the parent roots upwards from the block [r], for at most [n]
    links, and tells whether it meets [a]. *)
Fixpoint builds_on (n : nat) (l : list ChainEntry.t) (a r : beacon.Root) : bool :=
  match n with
  | O => false
  | S n' =>
      match find (is_block r) l with
      | None => false
      | Some e =>
          beacon.Root_eqb (ChainEntry.ParentRoot e) a
          || builds_on n' l a (ChainEntry.ParentRoot e)
      end
  end.

(** Modelled from the spec: [IsAncestor(root, ofRoot)] within one
    region, "unknown=true signals cannot determine locally"; an
    ancestor is "an entry that another entry builds upon, directly or
    transitively, excluding itself". *)
Definition is_ancestor (l : list ChainEntry.t) (root ofRoot : beacon.Root)
  : bool * bool :=
  match find (is_block root) l, find (is_block ofRoot) l with
  | Some _, Some _ => (false, builds_on (List.length l) l root ofRoot)
  | _, _ => (true, false)
  end.

(** Modelled from the spec: an iterator over entries kept in slot order
    from slot [start] on; "if the request is out of bounds, an error
    may be returned". *)
Definition iter_over (start : beacon.Slot) (l : list ChainEntry.t) : ChainIter.t :=
  let stop := beacon.wrap64 (start + Z.of_nat (List.length l)) in
  {| ChainIter.Start := start;
     ChainIter.End := stop;
     ChainIter.Entry := fun slot =>
       if (start <=? slot) && (slot <? stop)
       then (nth_error l (Z.to_nat (slot - start)), None)
       else (None, Some "slot out of bounds"%string) |}.

(** Modelled from the spec: an iterator over a run of entries that
    starts at slot [start]; [Entry] "fetches the chain entry at the given
    slot", by the slot the entry carries, and "if it does not exist,
    entry=nil, err=nil". *)
Definition slot_iter (start : beacon.Slot) (l : list ChainEntry.t) : ChainIter.t :=
  let stop := beacon.wrap64 (start + Z.of_nat (List.length l)) in
  {| ChainIter.Start := start;
     ChainIter.End := stop;
     ChainIter.Entry := fun slot =>
       if (start <=? slot) && (slot <? stop)
       then (find (at_slot slot) l, None)
       else (None, Some "slot out of bounds"%string) |}.

(** Modelled from the spec: the iterator of the cold region, over the
    entries the cold region holds, from its first slot on. *)
Definition cold_iter (w : t) : ChainIter.t :=
  slot_iter (cold_start w) (cold_entries w).


(** Modelled from the spec: the first slot of the hot region, the slot
    of the entry it is rooted at. *)
Definition hot_start (w : t) : beacon.Slot :=
  match hot_entries w with
  | e :: _ => ChainEntry.Slot e
  | [] => 0
  end.

(** Modelled from the spec: the iterator of the hot region, over the
    entries the hot region holds, from its first entry on. *)
Definition hot_iter (w : t) : ChainIter.t :=
  slot_iter (hot_start w) (hot_entries w).





(** Modelled from the spec: the hot region (section 4.3). *)
Definition hot_impl : HotChain.impl t :=
  fun X c =>
    match c in HotChain.call X return t -> X * t with
    | HotChain.ByStateRoot root => fun w =>
        (lookup (has_state_root root) (hot_entries w) "hot: unknown state root"%string, w)
    | HotChain.ByBlockRoot root => fun w =>
        (lookup (is_block root) (hot_entries w) "hot: unknown block root"%string, w)
    | HotChain.Closest fromBlockRoot toSlot => fun w =>
        (closest (hot_entries w) fromBlockRoot toSlot "hot: no entry"%string, w)
    | HotChain.BySlot slot => fun w =>
        (lookup (at_slot slot) (hot_entries w) "hot: no entry at slot"%string, w)
    | HotChain.IsAncestor root ofRoot => fun w =>
        (is_ancestor (hot_entries w) root ofRoot, w)
    | HotChain.Finalized => fun w => (finalized w, w)
    | HotChain.Iter => fun w => (inl (hot_iter w), w)
    end.

(** Modelled from the spec: the cold region (section 4.4).  Ingestion
    "accepts one finalized entry at a time, strictly in increasing slot
    order; rejects duplicate or out-of-order slots". *)
Definition cold_impl : ColdChain.impl t :=
  fun X c =>
    match c in ColdChain.call X return t -> X * t with
    | ColdChain.ByStateRoot root => fun w =>
        (lookup (has_state_root root) (cold_entries w) "cold: unknown state root"%string, w)
    | ColdChain.ByBlockRoot root => fun w =>
        (lookup (is_block root) (cold_entries w) "cold: unknown block root"%string, w)
    | ColdChain.Closest fromBlockRoot toSlot => fun w =>
        (closest (cold_entries w) fromBlockRoot toSlot "cold: no entry"%string, w)
    | ColdChain.BySlot slot => fun w =>
        (lookup (at_slot slot) (cold_entries w) "cold: no entry at slot"%string, w)
    | ColdChain.IsAncestor root ofRoot => fun w =>
        (is_ancestor (cold_entries w) root ofRoot, w)
    | ColdChain.Iter => fun w => (inl (cold_iter w), w)
    | ColdChain.OnFinalizedEntry entry => fun w =>
        if ChainEntry.Slot entry =? boundary w
        then (None,
              {| cold_start := cold_start w;
                 cold_entries := cold_entries w ++ [entry];
                 hot_entries := hot_entries w;
                 finalized := finalized w |})
        else (Some "cold: entry out of order"%string, w)
    end.

(** Modelled from the spec: the router over these two regions. *)
Definition chain : HotColdChain.t t unit :=
  {| HotColdChain.HotChain := hot_impl;
     HotColdChain.ColdChain := cold_impl;
     HotColdChain.Spec := tt |}.

(** Modelled from the spec: what the router's [Iter()] stitches
    together for these regions. *)
Definition full_iter (w : t) : FullChainIter.t :=
  {| FullChainIter.HotIter := hot_iter w;
     FullChainIter.ColdIter := cold_iter w |}.


End Regions.

(* ===================================================================== *)
(** ** A small chain *)
(* ===================================================================== *)

Module Example_chain.

Definition root_of (b : byte) : beacon.Root := repeat b 32.

Definition block (slot : beacon.Slot) (r parent st : byte) : ChainEntry.t :=
  {| ChainEntry.Slot := slot;
     ChainEntry.BlockRoot := root_of r;
     ChainEntry.ParentRoot := root_of parent;
     ChainEntry.IsEmpty := false;
     ChainEntry.StateRoot := root_of st |}.

Definition empty_slot (slot : beacon.Slot) (r parent st : byte) : ChainEntry.t :=
  {| ChainEntry.Slot := slot;
     ChainEntry.BlockRoot := root_of r;
     ChainEntry.ParentRoot := root_of parent;
     ChainEntry.IsEmpty := true;
     ChainEntry.StateRoot := root_of st |}.

(** Finalized blocks at slots 98 and 99. *)
Definition c98 : ChainEntry.t := block 98 Byte.x98 Byte.x97 Byte.xc8.
Definition c99 : ChainEntry.t := block 99 Byte.x99 Byte.x98 Byte.xc9.

(** The anchor at slot 100, block A at 101 on the anchor, no block at
    102, block B at 103 on A. *)
Definition anchor : ChainEntry.t := block 100 Byte.xa0 Byte.x99 Byte.xd0.
Definition entryA : ChainEntry.t := block 101 Byte.xa1 Byte.xa0 Byte.xd1.
Definition empty102 : ChainEntry.t := empty_slot 102 Byte.xa1 Byte.xa0 Byte.xd2.
Definition entryB : ChainEntry.t := block 103 Byte.xa3 Byte.xa1 Byte.xd3.

Definition rootC : beacon.Root := ChainEntry.BlockRoot c99.
Definition rootA : beacon.Root := ChainEntry.BlockRoot entryA.
Definition rootB : beacon.Root := ChainEntry.BlockRoot entryB.
Definition unknown_root : beacon.Root := root_of Byte.xff.

Definition w0 : Regions.t :=
  {| Regions.cold_start := 98;
     Regions.cold_entries := [c98; c99];
     Regions.hot_entries := [anchor; entryA; empty102; entryB];
     Regions.finalized :=
       {| beacon.Checkpoint.Epoch := 3;
          beacon.Checkpoint.Root := ChainEntry.BlockRoot anchor |} |}.

(** The same chain while the anchor is being handed over: the cold
    region has ingested it and the hot region has not pruned it yet. *)
Definition w_handover : Regions.t :=
  {| Regions.cold_start := 98;
     Regions.cold_entries := [c98; c99; anchor];
     Regions.hot_entries := [anchor; entryA; empty102; entryB];
     Regions.finalized := Regions.finalized w0 |}.

End Example_chain.

(* ===================================================================== *)
(** ** Further code of the sources *)
(* ===================================================================== *)

(** [bytes.Compare(a, b) < 0]: the order in which a store that sorts
    its keys bytewise keeps them. *)
Fixpoint bytes_less (a b : list byte) : bool :=
  match a, b with
  | _, [] => false
  | [], _ :: _ => true
  | x :: a', y :: b' =>
      if byte.unsigned x <? byte.unsigned y then true
      else if byte.unsigned y <? byte.unsigned x then false
      else bytes_less a' b'
  end.

(** Regions whose every method fails, to exercise the error paths: the
    iterator of the hot region fails when [hot_iter_fails] is set, the
    iterator of the cold region always fails. *)
Module Failing.

Definition no_iter : ChainIter.t :=
  {| ChainIter.Start := 0;
     ChainIter.End := 0;
     ChainIter.Entry := fun _ => (None, Some "no entries"%string) |}.

Definition hot_impl (hot_iter_fails : bool) : HotChain.impl unit :=
  fun X c =>
    match c in HotChain.call X return unit -> X * unit with
    | HotChain.ByStateRoot _ => fun w => ((None, Some "hot: down"%string), w)
    | HotChain.ByBlockRoot _ => fun w => ((None, Some "hot: down"%string), w)
    | HotChain.Closest _ _ => fun w => ((None, Some "hot: down"%string), w)
    | HotChain.BySlot _ => fun w => ((None, Some "hot: down"%string), w)
    | HotChain.IsAncestor _ _ => fun w => ((true, false), w)
    | HotChain.Finalized => fun w =>
        ({| beacon.Checkpoint.Epoch := 0; beacon.Checkpoint.Root := [] |}, w)
    | HotChain.Iter => fun w =>
        (if hot_iter_fails then inr "hot: down"%string else inl no_iter, w)
    end.

Definition cold_impl : ColdChain.impl unit :=
  fun X c =>
    match c in ColdChain.call X return unit -> X * unit with
    | ColdChain.ByStateRoot _ => fun w => ((None, Some "cold: down"%string), w)
    | ColdChain.ByBlockRoot _ => fun w => ((None, Some "cold: down"%string), w)
    | ColdChain.Closest _ _ => fun w => ((None, Some "cold: down"%string), w)
    | ColdChain.BySlot _ => fun w => ((None, Some "cold: down"%string), w)
    | ColdChain.IsAncestor _ _ => fun w => ((true, false), w)
    | ColdChain.Iter => fun w => (inr "cold: down"%string, w)
    | ColdChain.OnFinalizedEntry _ => fun w => (Some "cold: down"%string, w)
    end.

Definition chain (hot_iter_fails : bool) : HotColdChain.t unit unit :=
  {| HotColdChain.HotChain := hot_impl hot_iter_fails;
     HotColdChain.ColdChain := cold_impl;
     HotColdChain.Spec := tt |}.

End Failing.

(* ===================================================================== *)
(** ** Package phase0: SlotProcessFeature.ProcessSlot *)
(* ===================================================================== *)

Module phase0.

(** The methods of [SlotProcessFeature.Meta] that [ProcessSlot] calls,
    indexed by what they return; a Go pair [(value, err)] whose value is
    read only when [err == nil] is a sum. *)
Inductive call : Type -> Type :=
| StateRoot : call beacon.Root
| UpdateLatestBlockStateRoot (root : beacon.Root) : call (option error)
| GetLatestBlockRoot : call (beacon.Root + error)
| CurrentSlot : call (beacon.Slot + error)
| SetRecentRoots (slot : beacon.Slot) (blockRoot stateRoot : beacon.Root)
  : call (option error).

(** An implementation of [Meta] over a state [S]. *)
Definition Meta (S : Type) : Type := forall X : Type, call X -> S -> X * S.

Inductive prog (A : Type) : Type :=
| ret (a : A)
| ask {X : Type} (c : call X) (k : X -> prog A).

Arguments ret {A} a.
Arguments ask {A X} c k.

Inductive event : Type :=
| Called {X : Type} (c : call X).

Fixpoint run {S A : Type} (meta : Meta S) (p : prog A) (s : S)
  : A * S * list event :=
  match p with
  | ret a => (a, s, [])
  | ask c k =>
      let '(x, s1) := meta _ c s in
      let '(a, s2, tr) := run meta (k x) s1 in
      (a, s2, Called c :: tr)
  end.

(** [func (f *SlotProcessFeature) ProcessSlot() error] *)
Definition ProcessSlot : prog (option error) :=
  ask StateRoot (fun latestStateRoot =>
  ask (UpdateLatestBlockStateRoot latestStateRoot) (fun err =>
  match err with
  | Some err => ret (Some err)
  | None =>
      ask GetLatestBlockRoot (fun r =>
      match r with
      | inr err => ret (Some err)
      | inl previousBlockRoot =>
          ask CurrentSlot (fun r =>
          match r with
          | inr err => ret (Some err)
          | inl currentSlot =>
              ask (SetRecentRoots currentSlot previousBlockRoot latestStateRoot)
                (fun err =>
                 match err with
                 | Some err => ret (Some err)
                 | None => ret None
                 end)
          end)
      end)
  end)).

(** The five calls of a complete run, for the state root [r], the block
    root [b] and the slot [n] that the reads returned. *)
Definition all_calls (r b : beacon.Root) (n : beacon.Slot) : list event :=
  [ Called StateRoot; Called (UpdateLatestBlockStateRoot r);
    Called GetLatestBlockRoot; Called CurrentSlot;
    Called (SetRecentRoots n b r) ].

(** An implementation for examples: the state is the list of the recent
    roots written so far, and the call numbered [failing] (1 for the
    header update, 2 for the block root, 3 for the slot, 4 for the write)
    fails. *)
Definition example_meta (failing : nat) : Meta (list (beacon.Slot * beacon.Root * beacon.Root)) :=
  fun X c =>
    match c in call X
          return list (beacon.Slot * beacon.Root * beacon.Root)
                 -> X * list (beacon.Slot * beacon.Root * beacon.Root) with
    | StateRoot => fun s => (Example_chain.root_of Byte.xd1, s)
    | UpdateLatestBlockStateRoot _ => fun s =>
        (if Nat.eqb failing 1 then Some "header: no state"%string else None, s)
    | GetLatestBlockRoot => fun s =>
        (if Nat.eqb failing 2 then inr "header: no root"%string
         else inl (Example_chain.root_of Byte.xa1), s)
    | CurrentSlot => fun s =>
        (if Nat.eqb failing 3 then inr "no slot"%string else inl 101, s)
    | SetRecentRoots slot blockRoot stateRoot => fun s =>
        if Nat.eqb failing 4 then (Some "history: full"%string, s)
        else (None, (slot, blockRoot, stateRoot) :: s)
    end.

End phase0.

(* ===================================================================== *)
(** ** Package beacon: proposer slashings *)
(* ===================================================================== *)

Module slashing.

(** What [ProcessProposerSlashing] uses and the sources do not hold: the
    state view and its readers, the epochs context, the block header
    with its slot, its comparison [==] and its hash-tree-root, the BLS
    check, and [SlashValidator], the one call that changes the state. *)
Class Collaborators : Type := {
  BeaconStateView : Type;
  EpochsContext : Type;
  BeaconBlockHeader : Type;
  BLSSignature : Type;
  BLSPubkey : Type;
  BLSDomain : Type;
  ValidatorsView : Type;
  ValidatorView : Type;
  Header_Slot : BeaconBlockHeader -> beacon.Slot;
  Header_eqb : BeaconBlockHeader -> BeaconBlockHeader -> bool;
  Header_eqb_eq : forall a b, Header_eqb a b = true <-> a = b;
  Header_HashTreeRoot : BeaconBlockHeader -> beacon.Root;
  CurrentEpoch : EpochsContext -> beacon.Epoch;
  Validators : BeaconStateView -> ValidatorsView + error;
  Validator : ValidatorsView -> Z -> ValidatorView + error;
  IsSlashable : ValidatorView -> beacon.Epoch -> bool + error;
  ToEpoch : beacon.Slot -> beacon.Epoch;
  DOMAIN_BEACON_PROPOSER : Z;
  GetDomain : BeaconStateView -> Z -> beacon.Epoch -> BLSDomain + error;
  Pubkey : EpochsContext -> Z -> option BLSPubkey;
  Verify : BLSPubkey -> beacon.Root -> BLSSignature -> bool;
  ComputeSigningRoot : beacon.Root -> BLSDomain -> beacon.Root;
  SlashValidator :
    BeaconStateView -> EpochsContext -> Z -> option Z
    -> BeaconStateView * option error
}.

Section WithCollaborators.

Context {C : Collaborators}.

Record SignedBeaconBlockHeader : Type := {
  Message : BeaconBlockHeader;
  Signature : BLSSignature
}.

(** [type ProposerSlashing struct] *)
Record ProposerSlashing : Type := {
  ProposerIndex : Z;
  SignedHeader1 : SignedBeaconBlockHeader;
  SignedHeader2 : SignedBeaconBlockHeader
}.

(** The signature of [h] is that of [pubkey] over the signing root of
    its message: the argument of [!bls.Verify(...)]. *)
Definition header_verifies (pubkey : BLSPubkey) (domain : BLSDomain)
  (h : SignedBeaconBlockHeader) : bool :=
  Verify pubkey (ComputeSigningRoot (Header_HashTreeRoot (Message h)) domain)
    (Signature h).

(** [func (state *BeaconStateView) ProcessProposerSlashing(
    epc *EpochsContext, ps *ProposerSlashing) error]; the state after
    the call comes with the error. *)
Definition ProcessProposerSlashing (state : BeaconStateView)
  (epc : EpochsContext) (ps : ProposerSlashing)
  : BeaconStateView * option error :=
  if negb (Header_Slot (Message (SignedHeader1 ps))
           =? Header_Slot (Message (SignedHeader2 ps)))
  then (state, Some "proposer slashing requires slashing headers to have the same slot"%string)
  else if Header_eqb (Message (SignedHeader1 ps)) (Message (SignedHeader2 ps))
  then (state, Some "proposer slashing requires two different headers"%string)
  else
    let currentEpoch := CurrentEpoch epc in
    match Validators state with
    | inr err => (state, Some err)
    | inl validators =>
    match Validator validators (ProposerIndex ps) with
    | inr err => (state, Some err)
    | inl validator =>
    match IsSlashable validator currentEpoch with
    | inr err => (state, Some err)
    | inl false =>
        (state, Some "proposer slashing requires proposer to be slashable"%string)
    | inl true =>
    match GetDomain state DOMAIN_BEACON_PROPOSER
            (ToEpoch (Header_Slot (Message (SignedHeader1 ps)))) with
    | inr err => (state, Some err)
    | inl domain =>
    match Pubkey epc (ProposerIndex ps) with
    | None => (state, Some "could not find pubkey of proposer"%string)
    | Some pubkey =>
        if negb (header_verifies pubkey domain (SignedHeader1 ps))
        then (state, Some "proposer slashing header 1 has invalid BLS signature"%string)
        else if negb (header_verifies pubkey domain (SignedHeader2 ps))
        then (state, Some "proposer slashing header 2 has invalid BLS signature"%string)
        else SlashValidator state epc (ProposerIndex ps) None
    end end end end end.

(** [func (state *BeaconStateView) ProcessProposerSlashings(
    epc *EpochsContext, ops []ProposerSlashing) error] *)
Fixpoint ProcessProposerSlashings (state : BeaconStateView)
  (epc : EpochsContext) (ops : list ProposerSlashing)
  : BeaconStateView * option error :=
  match ops with
  | [] => (state, None)
  | ps :: rest =>
      match ProcessProposerSlashing state epc ps with
      | (state', Some err) => (state', Some err)
      | (state', None) => ProcessProposerSlashings state' epc rest
      end
  end.

(** The conditions under which a slashing reaches [SlashValidator]. *)
Definition checks_pass (state : BeaconStateView) (epc : EpochsContext)
  (ps : ProposerSlashing) : Prop :=
  Header_Slot (Message (SignedHeader1 ps)) = Header_Slot (Message (SignedHeader2 ps)) /\
  Message (SignedHeader1 ps) <> Message (SignedHeader2 ps) /\
  exists validators validator domain pubkey,
    Validators state = inl validators /\
    Validator validators (ProposerIndex ps) = inl validator /\
    IsSlashable validator (CurrentEpoch epc) = inl true /\
    GetDomain state DOMAIN_BEACON_PROPOSER
      (ToEpoch (Header_Slot (Message (SignedHeader1 ps)))) = inl domain /\
    Pubkey epc (ProposerIndex ps) = Some pubkey /\
    header_verifies pubkey domain (SignedHeader1 ps) = true /\
    header_verifies pubkey domain (SignedHeader2 ps) = true.

End WithCollaborators.

(** Collaborators for examples: the state is the list of the slashed
    validator indices, a header is its slot and a body number, a
    signature says whether it verifies, validators 0 to 9 exist and a
    validator is slashable until it has been slashed. *)
#[local] Instance example : Collaborators := {|
  BeaconStateView := list Z;
  EpochsContext := unit;
  BeaconBlockHeader := (Z * Z)%type;
  BLSSignature := bool;
  BLSPubkey := Z;
  BLSDomain := unit;
  ValidatorsView := list Z;
  ValidatorView := bool;
  Header_Slot := fst;
  Header_eqb := fun a b => (fst a =? fst b) && (snd a =? snd b);
  Header_eqb_eq := fun a b =>
    conj (fun H : (fst a =? fst b) && (snd a =? snd b) = true =>
            match a, b return (fst a =? fst b) && (snd a =? snd b) = true -> a = b with
            | (a1, a2), (b1, b2) => fun H' =>
                f_equal2 pair
                  (proj1 (Z.eqb_eq a1 b1) (proj1 (andb_prop _ _ H')))
                  (proj1 (Z.eqb_eq a2 b2) (proj2 (andb_prop _ _ H')))
            end H)
         (fun E : a = b =>
            eq_ind a (fun b0 => (fst a =? fst b0) && (snd a =? snd b0) = true)
              (andb_true_intro
                 (conj (Z.eqb_refl (fst a)) (Z.eqb_refl (snd a)))) b E);
  Header_HashTreeRoot := fun _ => [];
  CurrentEpoch := fun _ => 3;
  Validators := fun state => inl state;
  Validator := fun slashed i =>
    if (0 <=? i) && (i <? 10)
    then inl (negb (existsb (Z.eqb i) slashed))
    else inr "validator index out of range"%string;
  IsSlashable := fun v _ => inl v;
  ToEpoch := fun slot => slot / 32;
  DOMAIN_BEACON_PROPOSER := 0;
  GetDomain := fun _ _ _ => inl tt;
  Pubkey := fun _ i => Some i;
  Verify := fun _ _ sig => sig;
  ComputeSigningRoot := fun r _ => r;
  SlashValidator := fun state _ i _ => (i :: state, None)
|}.

Definition example_slashing (i : Z) (ok1 ok2 : bool) : ProposerSlashing :=
  {| ProposerIndex := i;
     SignedHeader1 := {| Message := (101, 1); Signature := ok1 |};
     SignedHeader2 := {| Message := (101, 2); Signature := ok2 |} |}.

End slashing.

(* ===================================================================== *)
(** ** Package merge: ExecutionPayloadHeaderView.Raw *)
(* ===================================================================== *)

Module merge.

(** The views of the tree library and their conversions.  A conversion
    takes the error of the conversions before it and returns a value
    with an error; [AsLogsBloom] returns a pointer, which may be nil. *)
Class Views : Type := {
  View : Type;
  Eth1Address : Type;
  LogsBloom : Type;
  AsRoot : View -> option error -> beacon.Root * option error;
  AsEth1Address : View -> option error -> Eth1Address * option error;
  AsUint64 : View -> option error -> Z * option error;
  AsLogsBloom : View -> option error -> option LogsBloom * option error
}.

(** What a call does: it returns, or it panics. *)
Inductive outcome (A : Type) : Type :=
| Returns (a : A)
| Panics.

Arguments Returns {A} a.
Arguments Panics {A}.

Section WithViews.

Context {V : Views}.

(** [type ExecutionPayloadHeader struct] *)
Record ExecutionPayloadHeader : Type := {
  BlockHash : beacon.Root;
  ParentHash : beacon.Root;
  CoinBase : Eth1Address;
  StateRoot : beacon.Root;
  Number : Z;
  GasLimit : Z;
  ReceiptRoot : beacon.Root;
  HeaderLogsBloom : LogsBloom;
  TransactionsRoot : beacon.Root
}.

(** [fmt.Errorf("unexpected number of execution payload header
    fields: %d", len(values))] *)
Definition field_count_error (n : nat) : error :=
  ("unexpected number of execution payload header fields: "
     ++ DecimalString.NilEmpty.string_of_uint (Nat.to_uint n))%string.

(** [func (v *ExecutionPayloadHeaderView) Raw()], which returns a
    pointer to an [ExecutionPayloadHeader] and an error; [fieldValues]
    is what [v.FieldValues()] returns. *)
Definition Raw (fieldValues : list View * option error)
  : outcome (option ExecutionPayloadHeader * option error) :=
  let '(values, err) := fieldValues in
  match err with
  | Some e => Returns (None, Some e)
  | None =>
      if negb (Nat.eqb (List.length values) 9)
      then Returns (None, Some (field_count_error (List.length values)))
      else
        match values with
        | [v0; v1; v2; v3; v4; v5; v6; v7; v8] =>
            let '(blockHash, err) := AsRoot v0 err in
            let '(parentHash, err) := AsRoot v1 err in
            let '(coinbase, err) := AsEth1Address v2 err in
            let '(stateRoot, err) := AsRoot v3 err in
            let '(number, err) := AsUint64 v4 err in
            let '(gasLimit, err) := AsUint64 v5 err in
            let '(receiptRoot, err) := AsRoot v6 err in
            let '(logsBloom, err) := AsLogsBloom v7 err in
            let '(transactionsRoot, err) := AsRoot v8 err in
            match logsBloom with
            | None => Panics
            | Some bloom =>
                Returns
                  (Some {| BlockHash := blockHash;
                           ParentHash := parentHash;
                           CoinBase := coinbase;
                           StateRoot := stateRoot;
                           Number := number;
                           GasLimit := gasLimit;
                           ReceiptRoot := receiptRoot;
                           HeaderLogsBloom := bloom;
                           TransactionsRoot := transactionsRoot |},
                   None)
            end
        | _ => Panics
        end
  end.

End WithViews.

(** Views for examples: a view is a number; a conversion fails on a
    negative number, and once one has failed the later ones pass the
    error on with a zero value. *)
#[local] Instance example : Views := {|
  View := Z;
  Eth1Address := Z;
  LogsBloom := Z;
  AsRoot := fun v err =>
    match err with
    | Some e => ([], Some e)
    | None => if v <? 0 then ([], Some "not a root view"%string)
              else (le_split 32 v, None)
    end;
  AsEth1Address := fun v err =>
    match err with
    | Some e => (0, Some e)
    | None => if v <? 0 then (0, Some "not an address view"%string) else (v, None)
    end;
  AsUint64 := fun v err =>
    match err with
    | Some e => (0, Some e)
    | None => if v <? 0 then (0, Some "not a uint64 view"%string) else (v, None)
    end;
  AsLogsBloom := fun v err =>
    match err with
    | Some e => (None, Some e)
    | None => if v <? 0 then (Some 0, Some "not a bloom view"%string)
              else (Some v, None)
    end
|}.

End merge.


(* ===================================================================== *)
(** * Properties *)
(* ===================================================================== *)

(** ** The storage key *)

Lemma set_app (l m : list byte) (j : nat) (b : byte) :
  bytes.set (l ++ m) (List.length l + j) b = l ++ bytes.set m j b.
Proof.
  induction l as [|x l IH]; cbn [List.length Nat.add app bytes.set].
  - reflexivity.
  - now rewrite IH.
Qed.

Lemma PutUint64_app (l m : list byte) (lo : nat) (v : Z) :
  lo = List.length l ->
  bytes.PutUint64 (l ++ m) lo v = l ++ bytes.PutUint64 m 0 v.
Proof.
  intros ->. unfold bytes.PutUint64. cbn zeta.
  now rewrite !set_app.
Qed.

Lemma firstn_app_exact {A : Type} (n : nat) (l m : list A) :
  List.length l = n -> firstn n (l ++ m) = l.
Proof.
  intros <-. rewrite firstn_app, firstn_all, Nat.sub_diag.
  cbn [firstn]. apply app_nil_r.
Qed.

Lemma skipn_app_exact {A : Type} (n : nat) (l m : list A) :
  List.length l = n -> skipn n (l ++ m) = m.
Proof.
  intros <-. rewrite skipn_app, skipn_all, Nat.sub_diag. reflexivity.
Qed.

Lemma le_split_8 (v : Z) :
  le_split 8 v =
  [ byte.of_Z v; byte.of_Z (Z.shiftr v 8); byte.of_Z (Z.shiftr v 16);
    byte.of_Z (Z.shiftr v 24); byte.of_Z (Z.shiftr v 32);
    byte.of_Z (Z.shiftr v 40); byte.of_Z (Z.shiftr v 48);
    byte.of_Z (Z.shiftr v 56) ].
Proof.
  unfold le_split.
  rewrite !Z.shiftr_shiftr by lia.
  reflexivity.
Qed.

Lemma PutUint64_zero (v : Z) :
  bytes.PutUint64 (bytes.zero 8) 0 v = le_split 8 v.
Proof.
  rewrite le_split_8. reflexivity.
Qed.

Lemma copy_root (r : beacon.Root) :
  List.length r = 32%nat ->
  bytes.copy (bytes.zero 40) 0 32 r = r ++ bytes.zero 8.
Proof.
  intros Hlen. unfold bytes.copy.
  rewrite Hlen.
  change (Nat.min (32 - 0) 32) with 32%nat.
  change (firstn 0 (bytes.zero 40)) with (@nil byte).
  change (skipn (0 + 32) (bytes.zero 40)) with (bytes.zero 8).
  rewrite (firstn_all2 r) by lia.
  reflexivity.
Qed.

(** The source's [Bytes] computes the encoding that the specification
    words describe. *)
Lemma Bytes_spec_encoding (k : BlockSlotKey.t) :
  List.length (BlockSlotKey.Root k) = 32%nat ->
  BlockSlotKey.Bytes k = BlockSlotKey.spec_encoding k.
Proof.
  intros Hlen. unfold BlockSlotKey.Bytes, BlockSlotKey.spec_encoding.
  cbn zeta. rewrite (copy_root _ Hlen).
  rewrite PutUint64_app by (symmetry; exact Hlen).
  now rewrite PutUint64_zero.
Qed.

(** C7: for every key (a 32-byte root and a uint64 slot), [Bytes] is 40
    bytes long, its first 32 bytes are the root, and its last 8 bytes are
    the slot in little-endian order: byte [i] of them is bits [8i..8i+7]
    of the slot, and reading them back least significant byte first
    gives the slot. *)
Theorem C7_Bytes_layout (k : BlockSlotKey.t) :
  BlockSlotKey.wf k ->
  List.length (BlockSlotKey.Bytes k) = 40%nat /\
  firstn 32 (BlockSlotKey.Bytes k) = BlockSlotKey.Root k /\
  skipn 32 (BlockSlotKey.Bytes k) = le_split 8 (BlockSlotKey.Slot k) /\
  (forall i : nat, (i < 8)%nat ->
     nth_error (BlockSlotKey.Bytes k) (32 + i) =
     Some (byte.of_Z (Z.shiftr (BlockSlotKey.Slot k) (8 * Z.of_nat i)))) /\
  le_combine (skipn 32 (BlockSlotKey.Bytes k)) = BlockSlotKey.Slot k.
Proof.
  intros [Hlen Hslot].
  rewrite (Bytes_spec_encoding k Hlen). unfold BlockSlotKey.spec_encoding.
  rewrite (skipn_app_exact 32 _ _ Hlen), (firstn_app_exact 32 _ _ Hlen).
  repeat split.
  - rewrite length_app, length_le_split, Hlen. reflexivity.
  - intros i Hi.
    rewrite nth_error_app2 by lia.
    replace (32 + i - List.length (BlockSlotKey.Root k))%nat with i by lia.
    now apply nth_error_le_split.
  - rewrite le_combine_split.
    unfold beacon.uint64_max in Hslot.
    apply Z.mod_small. change (Z.of_nat 8 * 8) with 64. lia.
Qed.

Lemma C7_Bytes_layout_witness :
  let k := {| BlockSlotKey.Slot := 258;
              BlockSlotKey.Root := Example_chain.rootA |} in
  BlockSlotKey.wf k /\
  List.length (BlockSlotKey.Bytes k) = 40%nat /\
  firstn 32 (BlockSlotKey.Bytes k) = BlockSlotKey.Root k /\
  skipn 32 (BlockSlotKey.Bytes k) = le_split 8 (BlockSlotKey.Slot k) /\
  (forall i : nat, (i < 8)%nat ->
     nth_error (BlockSlotKey.Bytes k) (32 + i) =
     Some (byte.of_Z (Z.shiftr (BlockSlotKey.Slot k) (8 * Z.of_nat i)))) /\
  le_combine (skipn 32 (BlockSlotKey.Bytes k)) = BlockSlotKey.Slot k.
Proof.
  intro k.
  assert (Hwf : BlockSlotKey.wf k).
  { split; [reflexivity | unfold beacon.uint64_max; cbn; lia]. }
  split; [exact Hwf | exact (C7_Bytes_layout k Hwf)].
Defined.

(** C10: [Bytes] is injective: two keys that differ in the slot or in
    the root have different encodings. *)
Theorem C10_Bytes_injective (k1 k2 : BlockSlotKey.t) :
  BlockSlotKey.wf k1 -> BlockSlotKey.wf k2 ->
  BlockSlotKey.Slot k1 <> BlockSlotKey.Slot k2 \/
  BlockSlotKey.Root k1 <> BlockSlotKey.Root k2 ->
  BlockSlotKey.Bytes k1 <> BlockSlotKey.Bytes k2.
Proof.
  intros [Hlen1 Hs1] [Hlen2 Hs2] Hdiff Heq.
  rewrite (Bytes_spec_encoding k1 Hlen1), (Bytes_spec_encoding k2 Hlen2) in Heq.
  unfold BlockSlotKey.spec_encoding in Heq.
  assert (Hroot : BlockSlotKey.Root k1 = BlockSlotKey.Root k2).
  { apply (f_equal (firstn 32)) in Heq.
    now rewrite !firstn_app_exact in Heq by assumption. }
  assert (Hslot : BlockSlotKey.Slot k1 = BlockSlotKey.Slot k2).
  { apply (f_equal (skipn 32)) in Heq.
    rewrite !skipn_app_exact in Heq by assumption.
    apply (f_equal le_combine) in Heq. rewrite !le_combine_split in Heq.
    unfold beacon.uint64_max in Hs1, Hs2.
    change (Z.of_nat 8 * 8) with 64 in Heq.
    rewrite !Z.mod_small in Heq by lia. exact Heq. }
  destruct Hdiff as [Hd | Hd]; contradiction.
Qed.

Lemma C10_Bytes_injective_witness :
  let k1 := {| BlockSlotKey.Slot := 101;
               BlockSlotKey.Root := Example_chain.rootA |} in
  let k2 := {| BlockSlotKey.Slot := 102;
               BlockSlotKey.Root := Example_chain.rootA |} in
  BlockSlotKey.Bytes k1 <> BlockSlotKey.Bytes k2.
Proof.
  intros k1 k2.
  apply (C10_Bytes_injective k1 k2).
  - split; [reflexivity | unfold beacon.uint64_max; cbn; lia].
  - split; [reflexivity | unfold beacon.uint64_max; cbn; lia].
  - left. cbn. lia.
Defined.

(** ** Equality of roots, texts *)

Lemma Root_eqb_refl (a : beacon.Root) : beacon.Root_eqb a a = true.
Proof.
  induction a as [|x a IH]; cbn [beacon.Root_eqb]; [reflexivity|].
  now rewrite (Byte.byte_dec_lb eq_refl), IH.
Qed.

Lemma Root_eqb_eq (a b : beacon.Root) : beacon.Root_eqb a b = true -> a = b.
Proof.
  revert b. induction a as [|x a IH]; intros [|y b]; cbn [beacon.Root_eqb];
    try discriminate; [reflexivity|].
  intros H. apply andb_prop in H. destruct H as [Hxy Hab].
  apply Byte.byte_dec_bl in Hxy. apply IH in Hab. congruence.
Qed.

Lemma Root_eqb_neq (a b : beacon.Root) : a <> b -> beacon.Root_eqb a b = false.
Proof.
  intros Hne. destruct (beacon.Root_eqb a b) eqn:E; [|reflexivity].
  apply Root_eqb_eq in E. contradiction.
Qed.

Lemma string_app_assoc (a b c : string) :
  ((a ++ b) ++ c = a ++ (b ++ c))%string.
Proof.
  induction a as [|x a IH]; cbn [String.append]; [reflexivity | now rewrite IH].
Qed.

Lemma string_app_nil_r (a : string) : (a ++ "" = a)%string.
Proof.
  induction a as [|x a IH]; cbn [String.append]; [reflexivity | now rewrite IH].
Qed.

Lemma not_found_error_contains_hot (hotErr coldErr : error) :
  contains (not_found_error hotErr coldErr) hotErr.
Proof.
  exists "could not find chain entry in hot or cold chain. Hot: "%string,
         (", Cold: " ++ coldErr)%string.
  reflexivity.
Qed.

Lemma not_found_error_contains_cold (hotErr coldErr : error) :
  contains (not_found_error hotErr coldErr) coldErr.
Proof.
  exists ("could not find chain entry in hot or cold chain. Hot: "
            ++ hotErr ++ ", Cold: ")%string, ""%string.
  unfold not_found_error.
  rewrite string_app_nil_r, !string_app_assoc. reflexivity.
Qed.

(** ** Running the router *)

Lemma router_fallback (q : Query) : router q = fallback (hot_call q) (cold_call q).
Proof.
  destruct q; reflexivity.
Qed.

Section Run.

Context {W Spec : Type}.
Variable hc : HotColdChain.t W Spec.

Lemma run_fallback_hot (h : HotChain.call Result) (c : ColdChain.call Result)
  (w w1 : W) (hotEntry : option ChainEntry.t) :
  HotColdChain.HotChain hc _ h w = ((hotEntry, None), w1) ->
  run hc (fallback h c) w = ((hotEntry, None), w1, [HotCall h]).
Proof.
  intros Hh. cbn [fallback bind hot cold run]. rewrite Hh. reflexivity.
Qed.

Lemma run_fallback_cold (h : HotChain.call Result) (c : ColdChain.call Result)
  (w w1 w2 : W) (hotEntry coldEntry : option ChainEntry.t) (hotErr : error) :
  HotColdChain.HotChain hc _ h w = ((hotEntry, Some hotErr), w1) ->
  HotColdChain.ColdChain hc _ c w1 = ((coldEntry, None), w2) ->
  run hc (fallback h c) w = ((coldEntry, None), w2, [HotCall h; ColdCall c]).
Proof.
  intros Hh Hc. cbn [fallback bind hot cold run]. rewrite Hh.
  cbn [bind run]. rewrite Hc. reflexivity.
Qed.

Lemma run_fallback_none (h : HotChain.call Result) (c : ColdChain.call Result)
  (w w1 w2 : W) (hotEntry coldEntry : option ChainEntry.t)
  (hotErr coldErr : error) :
  HotColdChain.HotChain hc _ h w = ((hotEntry, Some hotErr), w1) ->
  HotColdChain.ColdChain hc _ c w1 = ((coldEntry, Some coldErr), w2) ->
  run hc (fallback h c) w =
  ((None, Some (not_found_error hotErr coldErr)), w2, [HotCall h; ColdCall c]).
Proof.
  intros Hh Hc. cbn [fallback bind hot cold run]. rewrite Hh.
  cbn [bind run]. rewrite Hc. reflexivity.
Qed.

Lemma IsAncestor_same (root : beacon.Root) (w : W) :
  run hc (HotColdChain.IsAncestor root root) w = ((false, false), w, []).
Proof.
  unfold HotColdChain.IsAncestor. rewrite Root_eqb_refl. reflexivity.
Qed.

Lemma IsAncestor_cold_branch (root ofRoot : beacon.Root) (w : W) :
  root <> ofRoot ->
  cold_resolves hc root w = true ->
  run hc (HotColdChain.IsAncestor root ofRoot) w = run hc (cold_branch root ofRoot) w.
Proof.
  intros Hne Hres.
  unfold HotColdChain.IsAncestor, cold_branch, cold_resolves in *.
  rewrite (Root_eqb_neq _ _ Hne).
  cbn [bind cold hot run].
  destruct (HotColdChain.ColdChain hc _ (ColdChain.ByBlockRoot root) w)
    as [[e [err|]] w1]; cbn [fst snd] in Hres; [discriminate|].
  reflexivity.
Qed.

Lemma IsAncestor_bridge_branch (root ofRoot : beacon.Root) (w : W) :
  root <> ofRoot ->
  cold_resolves hc root w = false ->
  cold_resolves hc ofRoot (after_cold_probe hc root w) = true ->
  run hc (HotColdChain.IsAncestor root ofRoot) w = run hc (bridge_branch root ofRoot) w.
Proof.
  intros Hne Hres Hof.
  unfold HotColdChain.IsAncestor, bridge_branch, cold_resolves, after_cold_probe in *.
  rewrite (Root_eqb_neq _ _ Hne).
  cbn [bind cold hot run].
  destruct (HotColdChain.ColdChain hc _ (ColdChain.ByBlockRoot root) w)
    as [[e [err|]] w1]; cbn [fst snd] in Hres, Hof; [|discriminate].
  cbn [bind cold hot run].
  destruct (HotColdChain.ColdChain hc _ (ColdChain.ByBlockRoot ofRoot) w1)
    as [[e2 [err2|]] w2]; cbn [fst snd] in Hof; [discriminate|].
  reflexivity.
Qed.

Lemma IsAncestor_hot_branch (root ofRoot : beacon.Root) (w : W) :
  root <> ofRoot ->
  cold_resolves hc root w = false ->
  cold_resolves hc ofRoot (after_cold_probe hc root w) = false ->
  run hc (HotColdChain.IsAncestor root ofRoot) w = run hc (hot_branch root ofRoot) w.
Proof.
  intros Hne Hres Hof.
  unfold HotColdChain.IsAncestor, hot_branch, cold_resolves, after_cold_probe in *.
  rewrite (Root_eqb_neq _ _ Hne).
  cbn [bind cold hot run].
  destruct (HotColdChain.ColdChain hc _ (ColdChain.ByBlockRoot root) w)
    as [[e [err|]] w1]; cbn [fst snd] in Hres, Hof; [|discriminate].
  cbn [bind cold hot run].
  destruct (HotColdChain.ColdChain hc _ (ColdChain.ByBlockRoot ofRoot) w1)
    as [[e2 [err2|]] w2]; cbn [fst snd] in Hof; [|discriminate].
  reflexivity.
Qed.

(** The cold branch talks to the cold region only. *)
Lemma cold_branch_trace (root ofRoot : beacon.Root) (w : W) :
  trace hc (cold_branch root ofRoot) w =
  [ColdCall (ColdChain.ByBlockRoot root); ColdCall (ColdChain.IsAncestor root ofRoot)].
Proof.
  unfold trace, cold_branch. cbn [bind cold run].
  destruct (HotColdChain.ColdChain hc _ (ColdChain.ByBlockRoot root) w) as [r w1].
  cbn [bind run].
  destruct (HotColdChain.ColdChain hc _ (ColdChain.IsAncestor root ofRoot) w1) as [r2 w2].
  reflexivity.
Qed.

End Run.

Section Results.

Context {W Spec : Type}.
Variable hc : HotColdChain.t W Spec.

(** Name what the next call to a region returns, in the order in which
    the calls are made: a call whose state is itself the outcome of a
    call is left for later. *)
Ltac ask_region :=
  match goal with
  | |- context [HotColdChain.ColdChain ?h ?X ?c ?w] =>
      lazymatch w with
      | context [HotColdChain.ColdChain] => fail
      | context [HotColdChain.HotChain] => fail
      | _ => destruct (HotColdChain.ColdChain h X c w) as [? ?]
      end
  | |- context [HotColdChain.HotChain ?h ?X ?c ?w] =>
      lazymatch w with
      | context [HotColdChain.ColdChain] => fail
      | context [HotColdChain.HotChain] => fail
      | _ => destruct (HotColdChain.HotChain h X c w) as [? ?]
      end
  end; cbn [bind run fst snd].

(** What the three branches return, in terms of the calls to the
    regions. *)
Lemma result_cold_branch (root ofRoot : beacon.Root) (w : W) :
  result hc (cold_branch root ofRoot) w =
  fst (HotColdChain.ColdChain hc _ (ColdChain.IsAncestor root ofRoot)
         (after_cold_probe hc root w)).
Proof.
  unfold result, cold_branch, after_cold_probe. cbn [bind cold run].
  do 2 ask_region. reflexivity.
Qed.

Lemma result_bridge_branch (root ofRoot : beacon.Root) (w : W) :
  result hc (bridge_branch root ofRoot) w =
  let w2 := after_cold_probe hc ofRoot (after_cold_probe hc root w) in
  let fin := fst (HotColdChain.HotChain hc _ HotChain.Finalized w2) in
  let w3 := snd (HotColdChain.HotChain hc _ HotChain.Finalized w2) in
  fst (HotColdChain.HotChain hc _
         (HotChain.IsAncestor root (beacon.Checkpoint.Root fin)) w3).
Proof.
  unfold result, bridge_branch, after_cold_probe. cbn [bind cold hot run].
  do 4 ask_region. reflexivity.
Qed.

Lemma result_hot_branch (root ofRoot : beacon.Root) (w : W) :
  result hc (hot_branch root ofRoot) w =
  fst (HotColdChain.HotChain hc _ (HotChain.IsAncestor root ofRoot)
         (after_cold_probe hc ofRoot (after_cold_probe hc root w))).
Proof.
  unfold result, hot_branch, after_cold_probe. cbn [bind cold hot run].
  do 3 ask_region. reflexivity.
Qed.

Lemma result_of_run {A : Type} (p q : Prog A) (w : W) :
  run hc p w = run hc q w -> result hc p w = result hc q w.
Proof.
  unfold result. now intros ->.
Qed.

End Results.

(** ** The ancestry dispatch *)

(** C1: [IsAncestor] dispatches in four cases, tried in this order.
    (1) [IsAncestor(r, r)] is [(false, false)] and calls no region.
    (2) Otherwise, if [ColdChain.ByBlockRoot(root)] succeeds, the router
    makes the calls of [cold_branch] and returns what
    [ColdChain.IsAncestor(root, ofRoot)] returns.  (3) Otherwise, if
    [ColdChain.ByBlockRoot(ofRoot)] succeeds, it returns what
    [HotChain.IsAncestor(root, HotChain.Finalized().Root)] returns.
    (4) Otherwise it returns what [HotChain.IsAncestor(root, ofRoot)]
    returns. *)
Theorem C1_IsAncestor_dispatch {W Spec : Type} (hc : HotColdChain.t W Spec)
  (w : W) (root ofRoot : beacon.Root) :
  run hc (HotColdChain.IsAncestor root root) w = ((false, false), w, []) /\
  (root <> ofRoot ->
   cold_resolves hc root w = true ->
   run hc (HotColdChain.IsAncestor root ofRoot) w = run hc (cold_branch root ofRoot) w /\
   result hc (HotColdChain.IsAncestor root ofRoot) w =
   fst (HotColdChain.ColdChain hc _ (ColdChain.IsAncestor root ofRoot)
          (after_cold_probe hc root w))) /\
  (root <> ofRoot ->
   cold_resolves hc root w = false ->
   cold_resolves hc ofRoot (after_cold_probe hc root w) = true ->
   run hc (HotColdChain.IsAncestor root ofRoot) w = run hc (bridge_branch root ofRoot) w /\
   result hc (HotColdChain.IsAncestor root ofRoot) w =
   (let w2 := after_cold_probe hc ofRoot (after_cold_probe hc root w) in
    let fin := fst (HotColdChain.HotChain hc _ HotChain.Finalized w2) in
    let w3 := snd (HotColdChain.HotChain hc _ HotChain.Finalized w2) in
    fst (HotColdChain.HotChain hc _
           (HotChain.IsAncestor root (beacon.Checkpoint.Root fin)) w3))) /\
  (root <> ofRoot ->
   cold_resolves hc root w = false ->
   cold_resolves hc ofRoot (after_cold_probe hc root w) = false ->
   run hc (HotColdChain.IsAncestor root ofRoot) w = run hc (hot_branch root ofRoot) w /\
   result hc (HotColdChain.IsAncestor root ofRoot) w =
   fst (HotColdChain.HotChain hc _ (HotChain.IsAncestor root ofRoot)
          (after_cold_probe hc ofRoot (after_cold_probe hc root w)))).
Proof.
  split; [apply IsAncestor_same|].
  split; [|split].
  - intros Hne Hres.
    pose proof (IsAncestor_cold_branch hc root ofRoot w Hne Hres) as Hrun.
    split; [exact Hrun|].
    rewrite (result_of_run hc _ _ w Hrun). apply result_cold_branch.
  - intros Hne Hres Hof.
    pose proof (IsAncestor_bridge_branch hc root ofRoot w Hne Hres Hof) as Hrun.
    split; [exact Hrun|].
    rewrite (result_of_run hc _ _ w Hrun). apply result_bridge_branch.
  - intros Hne Hres Hof.
    pose proof (IsAncestor_hot_branch hc root ofRoot w Hne Hres Hof) as Hrun.
    split; [exact Hrun|].
    rewrite (result_of_run hc _ _ w Hrun). apply result_hot_branch.
Qed.

Lemma roots_differ (a b : byte) :
  Byte.eqb a b = false -> Example_chain.root_of a <> Example_chain.root_of b.
Proof.
  intros Hab Heq. unfold Example_chain.root_of in Heq. cbn [repeat] in Heq.
  injection Heq as Heq. subst b.
  rewrite (Byte.byte_dec_lb eq_refl) in Hab. discriminate.
Defined.

Lemma C1_IsAncestor_dispatch_witness :
  result Regions.chain
    (HotColdChain.IsAncestor Example_chain.rootC Example_chain.rootB)
    Example_chain.w0 = (true, false) /\
  result Regions.chain
    (HotColdChain.IsAncestor Example_chain.rootB Example_chain.rootC)
    Example_chain.w0 = (false, false) /\
  result Regions.chain
    (HotColdChain.IsAncestor Example_chain.rootA Example_chain.rootB)
    Example_chain.w0 = (false, true).
Proof.
  split; [|split].
  - destruct (C1_IsAncestor_dispatch Regions.chain Example_chain.w0
                Example_chain.rootC Example_chain.rootB) as (_ & H & _ & _).
    destruct H as [_ H]; [apply roots_differ; reflexivity | reflexivity |].
    rewrite H. reflexivity.
  - destruct (C1_IsAncestor_dispatch Regions.chain Example_chain.w0
                Example_chain.rootB Example_chain.rootC) as (_ & _ & H & _).
    destruct H as [_ H];
      [apply roots_differ; reflexivity | reflexivity | reflexivity |].
    rewrite H. reflexivity.
  - destruct (C1_IsAncestor_dispatch Regions.chain Example_chain.w0
                Example_chain.rootA Example_chain.rootB) as (_ & _ & _ & H).
    destruct H as [_ H];
      [apply roots_differ; reflexivity | reflexivity | reflexivity |].
    rewrite H. reflexivity.
Defined.

(** ** The four lookups *)

(** C2: for [ByStateRoot], [ByBlockRoot], [Closest] and [BySlot]: when
    the hot lookup returns no error, its entry is returned with no
    error; when it returns an error, the cold lookup is made, and its
    entry is returned with no error if it succeeds; when both return an
    error, the router returns no entry and one error whose text
    contains the text of the hot error and the text of the cold error. *)
Theorem C2_router_hot_then_cold {W Spec : Type} (hc : HotColdChain.t W Spec)
  (q : Query) (w : W) :
  (forall hotEntry w1,
     HotColdChain.HotChain hc _ (hot_call q) w = ((hotEntry, None), w1) ->
     result hc (router q) w = (hotEntry, None)) /\
  (forall hotEntry hotErr w1 coldEntry w2,
     HotColdChain.HotChain hc _ (hot_call q) w = ((hotEntry, Some hotErr), w1) ->
     HotColdChain.ColdChain hc _ (cold_call q) w1 = ((coldEntry, None), w2) ->
     result hc (router q) w = (coldEntry, None) /\
     trace hc (router q) w = [HotCall (hot_call q); ColdCall (cold_call q)]) /\
  (forall hotEntry hotErr w1 coldEntry coldErr w2,
     HotColdChain.HotChain hc _ (hot_call q) w = ((hotEntry, Some hotErr), w1) ->
     HotColdChain.ColdChain hc _ (cold_call q) w1 = ((coldEntry, Some coldErr), w2) ->
     exists msg : error,
       result hc (router q) w = (None, Some msg) /\
       contains msg hotErr /\ contains msg coldErr /\
       trace hc (router q) w = [HotCall (hot_call q); ColdCall (cold_call q)]).
Proof.
  rewrite router_fallback. unfold result, trace.
  split; [|split].
  - intros hotEntry w1 Hh.
    now rewrite (run_fallback_hot hc _ _ _ _ _ Hh).
  - intros hotEntry hotErr w1 coldEntry w2 Hh Hc.
    now rewrite (run_fallback_cold hc _ _ _ _ _ _ _ _ Hh Hc).
  - intros hotEntry hotErr w1 coldEntry coldErr w2 Hh Hc.
    exists (not_found_error hotErr coldErr).
    rewrite (run_fallback_none hc _ _ _ _ _ _ _ _ _ Hh Hc).
    repeat split.
    + apply not_found_error_contains_hot.
    + apply not_found_error_contains_cold.
Qed.

Lemma C2_router_hot_then_cold_witness :
  result Regions.chain (router (QBySlot 102)) Example_chain.w0
    = (Some Example_chain.empty102, None) /\
  result Regions.chain (router (QByBlockRoot Example_chain.rootC)) Example_chain.w0
    = (Some Example_chain.c99, None) /\
  exists msg : error,
    result Regions.chain (router (QByStateRoot Example_chain.unknown_root))
      Example_chain.w0 = (None, Some msg) /\
    contains msg "hot: unknown state root" /\
    contains msg "cold: unknown state root".
Proof.
  split; [|split].
  - destruct (C2_router_hot_then_cold Regions.chain (QBySlot 102) Example_chain.w0)
      as (H & _ & _).
    apply (H _ Example_chain.w0). reflexivity.
  - destruct (C2_router_hot_then_cold Regions.chain
                (QByBlockRoot Example_chain.rootC) Example_chain.w0)
      as (_ & H & _).
    apply (H None "hot: unknown block root"%string Example_chain.w0 _ Example_chain.w0);
      reflexivity.
  - destruct (C2_router_hot_then_cold Regions.chain
                (QByStateRoot Example_chain.unknown_root) Example_chain.w0)
      as (_ & _ & H).
    destruct (H None "hot: unknown state root"%string Example_chain.w0
                None "cold: unknown state root"%string Example_chain.w0
                eq_refl eq_refl) as (msg & Hres & Hhot & Hcold & _).
    exists msg. repeat split; assumption.
Defined.

(** C9: for each of the four lookups, when the hot lookup returns no
    error the router returns exactly the hot entry and makes no call to
    the cold region, so that the answer is the same whatever the cold
    region holds (also an entry that is in both regions is served from
    the hot one); and whenever the router did call the cold region, the
    hot lookup had returned an error. *)
Theorem C9_hot_served_first {W Spec : Type} (hc : HotColdChain.t W Spec)
  (q : Query) (w : W) :
  (forall hotEntry w1,
     HotColdChain.HotChain hc _ (hot_call q) w = ((hotEntry, None), w1) ->
     run hc (router q) w = ((hotEntry, None), w1, [HotCall (hot_call q)]) /\
     existsb is_cold_call (trace hc (router q) w) = false /\
     forall (otherCold : ColdChain.impl W),
       run {| HotColdChain.HotChain := HotColdChain.HotChain hc;
              HotColdChain.ColdChain := otherCold;
              HotColdChain.Spec := HotColdChain.Spec _ _ hc |} (router q) w
       = ((hotEntry, None), w1, [HotCall (hot_call q)])) /\
  (existsb is_cold_call (trace hc (router q) w) = true ->
   snd (fst (HotColdChain.HotChain hc _ (hot_call q) w)) <> None).
Proof.
  rewrite router_fallback.
  split.
  - intros hotEntry w1 Hh.
    split; [|split].
    + exact (run_fallback_hot hc _ _ _ _ _ Hh).
    + unfold trace. now rewrite (run_fallback_hot hc _ _ _ _ _ Hh).
    + intros otherCold. apply run_fallback_hot. exact Hh.
  - intros Htr Hnone.
    destruct (HotColdChain.HotChain hc _ (hot_call q) w) as [[hotEntry hotErr] w1] eqn:Hh.
    cbn [fst snd] in Hnone. subst hotErr.
    unfold trace in Htr. rewrite (run_fallback_hot hc _ _ _ _ _ Hh) in Htr.
    discriminate Htr.
Qed.

Lemma C9_hot_served_first_witness :
  let q := QByBlockRoot (ChainEntry.BlockRoot Example_chain.anchor) in
  fst (HotColdChain.ColdChain Regions.chain _ (cold_call q) Example_chain.w_handover)
    = (Some Example_chain.anchor, None) /\
  run Regions.chain (router q) Example_chain.w_handover
    = ((Some Example_chain.anchor, None), Example_chain.w_handover,
       [HotCall (hot_call q)]) /\
  (existsb is_cold_call
     (trace Regions.chain (router (QBySlot 99)) Example_chain.w0) = true /\
   snd (fst (HotColdChain.HotChain Regions.chain _ (hot_call (QBySlot 99))
               Example_chain.w0)) <> None).
Proof.
  intro q. split; [reflexivity|]. split.
  - destruct (C9_hot_served_first Regions.chain q Example_chain.w_handover)
      as [H _].
    destruct (H (Some Example_chain.anchor) Example_chain.w_handover eq_refl)
      as [Hrun _].
    exact Hrun.
  - destruct (C9_hot_served_first Regions.chain (QBySlot 99) Example_chain.w0)
      as [_ H].
    split; [reflexivity | apply H; reflexivity].
Defined.

(** ** Ancestry across the boundary *)

(** C5, as stated, fails: on the example chain the root of the block at
    slot 99 is held by the cold region only, precedes the anchor, and
    the hot-only block B builds on it through A and the anchor; still
    [IsAncestor(coldOnlyRoot, hotOnlyRoot)] calls the cold region only
    (the bridge over [Finalized()] is not taken) and reports
    [isAncestor = false], with [unknown = true]. *)
Lemma C5_counterexample :
  let hc := Regions.chain in
  let w := Example_chain.w0 in
  let coldOnlyRoot := Example_chain.rootC in
  let hotOnlyRoot := Example_chain.rootB in
  (cold_resolves hc coldOnlyRoot w = true /\
   hot_resolves hc coldOnlyRoot w = false /\
   cold_resolves hc hotOnlyRoot w = false /\
   hot_resolves hc hotOnlyRoot w = true /\
   ChainEntry.Slot Example_chain.c99 < ChainEntry.Slot Example_chain.anchor /\
   Regions.builds_on 6 (Regions.cold_entries w ++ Regions.hot_entries w)
     coldOnlyRoot hotOnlyRoot = true) /\
  run hc (HotColdChain.IsAncestor coldOnlyRoot hotOnlyRoot) w =
    ((true, false), w,
     [ColdCall (ColdChain.ByBlockRoot coldOnlyRoot);
      ColdCall (ColdChain.IsAncestor coldOnlyRoot hotOnlyRoot)]) /\
  existsb is_hot_call
    (trace hc (HotColdChain.IsAncestor coldOnlyRoot hotOnlyRoot) w) = false /\
  existsb is_hot_call (trace hc (bridge_branch coldOnlyRoot hotOnlyRoot) w) = true /\
  ~ (run hc (HotColdChain.IsAncestor coldOnlyRoot hotOnlyRoot) w
       = run hc (bridge_branch coldOnlyRoot hotOnlyRoot) w /\
     snd (result hc (HotColdChain.IsAncestor coldOnlyRoot hotOnlyRoot) w) = true).
Proof.
  cbv zeta.
  split.
  { repeat split; reflexivity. }
  split; [reflexivity|].
  split; [reflexivity|].
  split; [reflexivity|].
  intros [_ H]. vm_compute in H. discriminate H.
Qed.

(** C5, amended: a query whose first root is resolvable in the cold
    region (and differs from the second) is resolved by the cold branch:
    the router calls the cold region only and returns what
    [ColdChain.IsAncestor(coldOnlyRoot, hotOnlyRoot)] returns.  The
    bridge over the anchor is taken by the query with the roots in the
    other order, [IsAncestor(hotOnlyRoot, coldOnlyRoot)], which returns
    what [HotChain.IsAncestor(hotOnlyRoot, HotChain.Finalized().Root)]
    returns. *)
Theorem C5_cold_root_takes_cold_branch {W Spec : Type}
  (hc : HotColdChain.t W Spec) (w : W) (coldOnlyRoot hotOnlyRoot : beacon.Root) :
  coldOnlyRoot <> hotOnlyRoot ->
  cold_resolves hc coldOnlyRoot w = true ->
  (run hc (HotColdChain.IsAncestor coldOnlyRoot hotOnlyRoot) w
     = run hc (cold_branch coldOnlyRoot hotOnlyRoot) w /\
   existsb is_hot_call
     (trace hc (HotColdChain.IsAncestor coldOnlyRoot hotOnlyRoot) w) = false /\
   result hc (HotColdChain.IsAncestor coldOnlyRoot hotOnlyRoot) w
     = fst (HotColdChain.ColdChain hc _
              (ColdChain.IsAncestor coldOnlyRoot hotOnlyRoot)
              (after_cold_probe hc coldOnlyRoot w))) /\
  (cold_resolves hc hotOnlyRoot w = false ->
   cold_resolves hc coldOnlyRoot (after_cold_probe hc hotOnlyRoot w) = true ->
   run hc (HotColdChain.IsAncestor hotOnlyRoot coldOnlyRoot) w
     = run hc (bridge_branch hotOnlyRoot coldOnlyRoot) w /\
   result hc (HotColdChain.IsAncestor hotOnlyRoot coldOnlyRoot) w
     = (let w2 := after_cold_probe hc coldOnlyRoot
                    (after_cold_probe hc hotOnlyRoot w) in
        let fin := fst (HotColdChain.HotChain hc _ HotChain.Finalized w2) in
        let w3 := snd (HotColdChain.HotChain hc _ HotChain.Finalized w2) in
        fst (HotColdChain.HotChain hc _
               (HotChain.IsAncestor hotOnlyRoot (beacon.Checkpoint.Root fin)) w3))).
Proof.
  intros Hne Hcold.
  pose proof (IsAncestor_cold_branch hc _ _ w Hne Hcold) as Hrun.
  split.
  - split; [exact Hrun|]. split.
    + unfold trace at 1. rewrite Hrun. fold (trace hc (cold_branch coldOnlyRoot hotOnlyRoot) w).
      rewrite cold_branch_trace. reflexivity.
    + rewrite (result_of_run hc _ _ w Hrun). apply result_cold_branch.
  - intros Hhot Hcold'.
    assert (Hne' : hotOnlyRoot <> coldOnlyRoot) by congruence.
    pose proof (IsAncestor_bridge_branch hc _ _ w Hne' Hhot Hcold') as Hrun'.
    split; [exact Hrun'|].
    rewrite (result_of_run hc _ _ w Hrun'). apply result_bridge_branch.
Qed.

Lemma C5_cold_root_takes_cold_branch_witness :
  let hc := Regions.chain in
  let w := Example_chain.w0 in
  result hc (HotColdChain.IsAncestor Example_chain.rootC Example_chain.rootB) w
    = fst (HotColdChain.ColdChain hc _
             (ColdChain.IsAncestor Example_chain.rootC Example_chain.rootB) w) /\
  run hc (HotColdChain.IsAncestor Example_chain.rootB Example_chain.rootC) w
    = run hc (bridge_branch Example_chain.rootB Example_chain.rootC) w.
Proof.
  intros hc w.
  destruct (C5_cold_root_takes_cold_branch hc w
              Example_chain.rootC Example_chain.rootB) as [H1 H2].
  - apply roots_differ. reflexivity.
  - reflexivity.
  - split.
    + destruct H1 as (_ & _ & H1). exact H1.
    + destruct H2 as [H2 _]; [reflexivity | reflexivity | exact H2].
Defined.

(** ** Towards *)








(** ** The finalization sink *)

(** C8: the sink that [NewHotColdChain] hands to the hot chain calls
    [ColdChain.OnFinalizedEntry(entry)] exactly when [canonical] is true
    and then returns what that call returns; for [canonical = false] it
    returns [nil], calls nothing and leaves the regions as they were. *)
Theorem C8_sink_forwards_canonical_only {W Spec : Type}
  (hc : HotColdChain.t W Spec) (w : W) (entry : HotEntry) :
  run hc (HotColdChain.finalization_sink entry false) w = (None, w, []) /\
  run hc (HotColdChain.finalization_sink entry true) w
    = (let r := HotColdChain.ColdChain hc _ (ColdChain.OnFinalizedEntry entry) w in
       (fst r, snd r, [ColdCall (ColdChain.OnFinalizedEntry entry)])) /\
  (forall canonical : bool,
     trace hc (HotColdChain.finalization_sink entry canonical) w
     = if canonical then [ColdCall (ColdChain.OnFinalizedEntry entry)] else []) /\
  (forall (StatesDB : Type)
          (NewFinalizedChain : beacon.Slot -> Spec -> StatesDB -> ColdChain.impl W)
          (NewUnfinalizedChain :
             HotEntry -> HotColdChain.BlockSinkFn -> Spec -> HotChain.impl W + error)
          (anchor : HotEntry) (spec : Spec) (stateDB : StatesDB),
     NewHotColdChain NewFinalizedChain NewUnfinalizedChain anchor spec stateDB
     = match NewUnfinalizedChain anchor HotColdChain.finalization_sink spec with
       | inr err => inr err
       | inl hotCh =>
           inl {| HotColdChain.HotChain := hotCh;
                  HotColdChain.ColdChain :=
                    NewFinalizedChain (ChainEntry.Slot anchor) spec stateDB;
                  HotColdChain.Spec := spec |}
       end).
Proof.
  split; [reflexivity|].
  split.
  { cbn [HotColdChain.finalization_sink cold run].
    destruct (HotColdChain.ColdChain hc _ (ColdChain.OnFinalizedEntry entry) w)
      as [r w1].
    reflexivity. }
  split.
  { intros [|]; unfold trace; cbn [HotColdChain.finalization_sink cold run snd].
    - destruct (HotColdChain.ColdChain hc _ (ColdChain.OnFinalizedEntry entry) w)
        as [r w1].
      reflexivity.
    - reflexivity. }
  reflexivity.
Qed.

(** On the example chain: a canonical entry at the boundary slot is
    appended to the cold sequence; the same entry offered as not
    canonical leaves the cold sequence alone and still reports no
    error. *)
Example sink_on_example_chain :
  let hc := Regions.chain in
  let w := Example_chain.w0 in
  Regions.cold_entries
    (final hc (HotColdChain.finalization_sink Example_chain.anchor true) w)
    = [Example_chain.c98; Example_chain.c99; Example_chain.anchor] /\
  run hc (HotColdChain.finalization_sink Example_chain.anchor false) w
    = (None, w, []).
Proof.
  split; reflexivity.
Qed.

(** ** The stitched iterator *)

Lemma Entry_routes (fi : FullChainIter.t) (s : beacon.Slot) :
  (s < ChainIter.End (FullChainIter.ColdIter fi) ->
   FullChainIter.Entry fi s = ChainIter.Entry (FullChainIter.ColdIter fi) s) /\
  (ChainIter.End (FullChainIter.ColdIter fi) <= s ->
   FullChainIter.Entry fi s = ChainIter.Entry (FullChainIter.HotIter fi) s).
Proof.
  unfold FullChainIter.Entry. split; intros Hs.
  - apply Z.ltb_lt in Hs. now rewrite Hs.
  - apply Z.ltb_ge in Hs. now rewrite Hs.
Qed.

(** C4: [Start()] is the cold iterator's [Start()], [End()] is the hot
    iterator's [End()], and [Entry(s)] is the cold iterator's [Entry(s)]
    when [s < ColdIter.End()] and the hot iterator's [Entry(s)]
    otherwise. *)
Theorem C4_FullChainIter_routes (fi : FullChainIter.t) :
  FullChainIter.Start fi = ChainIter.Start (FullChainIter.ColdIter fi) /\
  FullChainIter.End fi = ChainIter.End (FullChainIter.HotIter fi) /\
  forall s : beacon.Slot,
    (s < ChainIter.End (FullChainIter.ColdIter fi) ->
     FullChainIter.Entry fi s = ChainIter.Entry (FullChainIter.ColdIter fi) s) /\
    (ChainIter.End (FullChainIter.ColdIter fi) <= s ->
     FullChainIter.Entry fi s = ChainIter.Entry (FullChainIter.HotIter fi) s).
Proof.
  split; [reflexivity|]. split; [reflexivity|].
  intros s. apply Entry_routes.
Qed.

Lemma C4_FullChainIter_routes_witness :
  let fi := Regions.full_iter Example_chain.w0 in
  FullChainIter.Entry fi 99 = (Some Example_chain.c99, None) /\
  FullChainIter.Entry fi 101 = (Some Example_chain.entryA, None).
Proof.
  intro fi.
  destruct (C4_FullChainIter_routes fi) as (_ & _ & H).
  split.
  - destruct (H 99) as [Hcold _]. rewrite Hcold; [reflexivity | cbn; lia].
  - destruct (H 101) as [_ Hhot]. rewrite Hhot; [reflexivity | cbn; lia].
Defined.









(** ** Further properties of the router *)

(** X1: the only error a lookup of the router returns is the combined
    one, and it comes without an entry, also when a region returned an
    entry together with its error. *)
Theorem router_error_without_entry {W Spec : Type} (hc : HotColdChain.t W Spec)
  (q : Query) (w : W) (err : error) :
  snd (result hc (router q) w) = Some err ->
  fst (result hc (router q) w) = None /\
  exists hotErr coldErr : error, err = not_found_error hotErr coldErr.
Proof.
  rewrite router_fallback. unfold result.
  destruct (HotColdChain.HotChain hc _ (hot_call q) w) as [[hotEntry [hotErr|]] w1] eqn:Hh.
  - destruct (HotColdChain.ColdChain hc _ (cold_call q) w1)
      as [[coldEntry [coldErr|]] w2] eqn:Hc.
    + rewrite (run_fallback_none hc _ _ _ _ _ _ _ _ _ Hh Hc). cbn [fst snd].
      intros H. injection H as <-. split; [reflexivity|]. now exists hotErr, coldErr.
    + rewrite (run_fallback_cold hc _ _ _ _ _ _ _ _ Hh Hc). cbn [fst snd]. discriminate.
  - rewrite (run_fallback_hot hc _ _ _ _ _ Hh). cbn [fst snd]. discriminate.
Qed.

Lemma router_error_without_entry_witness :
  fst (result (Failing.chain true) (router (QBySlot 5)) tt) = None.
Proof.
  apply (router_error_without_entry (Failing.chain true) (QBySlot 5) tt
           (not_found_error "hot: down"%string "cold: down"%string)).
  reflexivity.
Defined.

(** X2: when the lookups by block root leave the regions as they are,
    and [root] is not resolvable in the cold region, [IsAncestor(root,
    ofRoot)] gives one and the same answer for every [ofRoot] that the
    cold region resolves: past the probe, [ofRoot] is not looked at. *)
Theorem IsAncestor_bridge_ignores_ofRoot {W Spec : Type}
  (hc : HotColdChain.t W Spec) (w : W) (root ofRoot1 ofRoot2 : beacon.Root) :
  (forall r w', after_cold_probe hc r w' = w') ->
  root <> ofRoot1 -> root <> ofRoot2 ->
  cold_resolves hc root w = false ->
  cold_resolves hc ofRoot1 w = true ->
  cold_resolves hc ofRoot2 w = true ->
  result hc (HotColdChain.IsAncestor root ofRoot1) w
  = result hc (HotColdChain.IsAncestor root ofRoot2) w.
Proof.
  intros Hpure Hne1 Hne2 Hroot H1 H2.
  assert (Hb : forall ofRoot, root <> ofRoot -> cold_resolves hc ofRoot w = true ->
               result hc (HotColdChain.IsAncestor root ofRoot) w
               = (let fin := fst (HotColdChain.HotChain hc _ HotChain.Finalized w) in
                  let w3 := snd (HotColdChain.HotChain hc _ HotChain.Finalized w) in
                  fst (HotColdChain.HotChain hc _
                         (HotChain.IsAncestor root (beacon.Checkpoint.Root fin)) w3))).
  { intros ofRoot Hne Hof.
    rewrite (result_of_run hc _ (bridge_branch root ofRoot) w).
    - rewrite result_bridge_branch, !Hpure. reflexivity.
    - apply IsAncestor_bridge_branch; [assumption | assumption |].
      now rewrite Hpure. }
  now rewrite (Hb ofRoot1 Hne1 H1), (Hb ofRoot2 Hne2 H2).
Qed.

Lemma IsAncestor_bridge_ignores_ofRoot_witness :
  result Regions.chain
    (HotColdChain.IsAncestor Example_chain.rootB Example_chain.rootC)
    Example_chain.w0
  = result Regions.chain
      (HotColdChain.IsAncestor Example_chain.rootB
         (ChainEntry.BlockRoot Example_chain.c98))
      Example_chain.w0.
Proof.
  apply IsAncestor_bridge_ignores_ofRoot.
  - intros r w'. reflexivity.
  - apply roots_differ. reflexivity.
  - apply roots_differ. reflexivity.
  - reflexivity.
  - reflexivity.
  - reflexivity.
Defined.

(** X3: [Iter()] asks the hot region first.  If that fails, the error is
    reported with the hot prefix and the cold region is not asked; if
    the cold region fails, its error is reported with the cold prefix. *)
Theorem Iter_errors {W Spec : Type} (hc : HotColdChain.t W Spec) (w : W) :
  (forall err w1,
     HotColdChain.HotChain hc _ HotChain.Iter w = (inr err, w1) ->
     run hc HotColdChain.Iter w
     = (inr ("cannot iter hot part: " ++ err)%string, w1, [HotCall HotChain.Iter])) /\
  (forall hotIt w1 err w2,
     HotColdChain.HotChain hc _ HotChain.Iter w = (inl hotIt, w1) ->
     HotColdChain.ColdChain hc _ ColdChain.Iter w1 = (inr err, w2) ->
     run hc HotColdChain.Iter w
     = (inr ("cannot iter cold part: " ++ err)%string, w2,
        [HotCall HotChain.Iter; ColdCall ColdChain.Iter])).
Proof.
  split.
  - intros err w1 Hh. cbn [HotColdChain.Iter bind hot cold run].
    rewrite Hh. reflexivity.
  - intros hotIt w1 err w2 Hh Hc. cbn [HotColdChain.Iter bind hot cold run].
    rewrite Hh. cbn [bind run]. rewrite Hc. reflexivity.
Qed.

Lemma Iter_errors_witness :
  run (Failing.chain true) HotColdChain.Iter tt
  = (inr "cannot iter hot part: hot: down"%string, tt, [HotCall HotChain.Iter]) /\
  run (Failing.chain false) HotColdChain.Iter tt
  = (inr "cannot iter cold part: cold: down"%string, tt,
     [HotCall HotChain.Iter; ColdCall ColdChain.Iter]).
Proof.
  split.
  - apply (proj1 (Iter_errors (Failing.chain true) tt)). reflexivity.
  - apply (proj2 (Iter_errors (Failing.chain false) tt) Failing.no_iter tt);
      reflexivity.
Defined.

(** X4: when both regions hand out an iterator, [Iter()] returns one
    iterator and no error; it starts where the cold iterator starts,
    ends where the hot iterator ends, and serves a slot from the cold
    iterator below the cold end and from the hot iterator from there
    on. *)
Theorem Iter_stitches {W Spec : Type} (hc : HotColdChain.t W Spec) (w : W)
  (hotIt coldIt : ChainIter.t) (w1 w2 : W) :
  HotColdChain.HotChain hc _ HotChain.Iter w = (inl hotIt, w1) ->
  HotColdChain.ColdChain hc _ ColdChain.Iter w1 = (inl coldIt, w2) ->
  exists it : ChainIter.t,
    run hc HotColdChain.Iter w
    = (inl it, w2, [HotCall HotChain.Iter; ColdCall ColdChain.Iter]) /\
    ChainIter.Start it = ChainIter.Start coldIt /\
    ChainIter.End it = ChainIter.End hotIt /\
    forall s : beacon.Slot,
      (s < ChainIter.End coldIt -> ChainIter.Entry it s = ChainIter.Entry coldIt s) /\
      (ChainIter.End coldIt <= s -> ChainIter.Entry it s = ChainIter.Entry hotIt s).
Proof.
  intros Hh Hc.
  exists (FullChainIter.as_ChainIter
            {| FullChainIter.HotIter := hotIt; FullChainIter.ColdIter := coldIt |}).
  split.
  - cbn [HotColdChain.Iter bind hot cold run].
    rewrite Hh. cbn [bind run]. rewrite Hc. reflexivity.
  - split; [reflexivity|]. split; [reflexivity|].
    intros s.
    exact (Entry_routes
             {| FullChainIter.HotIter := hotIt; FullChainIter.ColdIter := coldIt |} s).
Qed.

Lemma Iter_stitches_witness :
  exists it : ChainIter.t,
    result Regions.chain HotColdChain.Iter Example_chain.w0 = inl it /\
    ChainIter.Start it = 98 /\ ChainIter.End it = 104 /\
    ChainIter.Entry it 99 = (Some Example_chain.c99, None) /\
    ChainIter.Entry it 103 = (Some Example_chain.entryB, None).
Proof.
  destruct (Iter_stitches Regions.chain Example_chain.w0
              (Regions.hot_iter Example_chain.w0)
              (Regions.cold_iter Example_chain.w0)
              Example_chain.w0 Example_chain.w0 eq_refl eq_refl)
    as (it & Hrun & Hstart & Hend & Hentry).
  exists it. unfold result. rewrite Hrun.
  split; [reflexivity|].
  split; [rewrite Hstart; reflexivity|].
  split; [rewrite Hend; reflexivity|].
  split.
  - rewrite (proj1 (Hentry 99)); [reflexivity | cbn; lia].
  - rewrite (proj2 (Hentry 103)); [reflexivity | cbn; lia].
Defined.

(** X5: stitching three iterators gives the same entries whichever two
    are stitched first, provided the first range does not end after the
    second. *)
Theorem FullChainIter_stitch_assoc (a b c : ChainIter.t) (s : beacon.Slot) :
  ChainIter.End a <= ChainIter.End b ->
  FullChainIter.Entry
    {| FullChainIter.HotIter := c;
       FullChainIter.ColdIter :=
         FullChainIter.as_ChainIter
           {| FullChainIter.HotIter := b; FullChainIter.ColdIter := a |} |} s
  = FullChainIter.Entry
      {| FullChainIter.HotIter :=
           FullChainIter.as_ChainIter
             {| FullChainIter.HotIter := c; FullChainIter.ColdIter := b |};
         FullChainIter.ColdIter := a |} s.
Proof.
  intros Hab.
  unfold FullChainIter.Entry, FullChainIter.as_ChainIter, FullChainIter.End,
    FullChainIter.Entry.
  cbn [FullChainIter.HotIter FullChainIter.ColdIter ChainIter.End ChainIter.Entry].
  destruct (s <? ChainIter.End a) eqn:Ha; destruct (s <? ChainIter.End b) eqn:Hb;
    try reflexivity.
  apply Z.ltb_lt in Ha. apply Z.ltb_ge in Hb. lia.
Qed.

Lemma FullChainIter_stitch_assoc_witness :
  let a := Regions.iter_over 98 [Example_chain.c98; Example_chain.c99] in
  let b := Regions.iter_over 100 [Example_chain.anchor; Example_chain.entryA] in
  let c := Regions.iter_over 102 [Example_chain.empty102; Example_chain.entryB] in
  FullChainIter.Entry
    {| FullChainIter.HotIter := c;
       FullChainIter.ColdIter :=
         FullChainIter.as_ChainIter
           {| FullChainIter.HotIter := b; FullChainIter.ColdIter := a |} |} 101
  = FullChainIter.Entry
      {| FullChainIter.HotIter :=
           FullChainIter.as_ChainIter
             {| FullChainIter.HotIter := c; FullChainIter.ColdIter := b |};
         FullChainIter.ColdIter := a |} 101.
Proof.
  intros a b c. apply FullChainIter_stitch_assoc. cbn. lia.
Defined.

(** ** The order of the storage keys *)

Lemma bytes_less_app (p a b : list byte) :
  bytes_less (p ++ a) (p ++ b) = bytes_less a b.
Proof.
  induction p as [|x p IH]; cbn [app bytes_less]; [reflexivity|].
  now rewrite Z.ltb_irrefl.
Qed.

(** X6: the bytewise order of the keys is not the order of the slots:
    for one root and a slot whose low byte is 255, the key of the next
    slot sorts before the key of the slot. *)
Theorem Bytes_order_is_not_slot_order (root : beacon.Root) (s : beacon.Slot) :
  List.length root = 32%nat ->
  0 <= s -> s + 1 <= beacon.uint64_max ->
  s mod 256 = 255 ->
  bytes_less
    (BlockSlotKey.Bytes {| BlockSlotKey.Slot := s + 1; BlockSlotKey.Root := root |})
    (BlockSlotKey.Bytes {| BlockSlotKey.Slot := s; BlockSlotKey.Root := root |})
  = true.
Proof.
  intros Hlen Hlo Hhi Hlow.
  rewrite !Bytes_spec_encoding by exact Hlen.
  unfold BlockSlotKey.spec_encoding. cbn [BlockSlotKey.Root BlockSlotKey.Slot].
  rewrite bytes_less_app, !le_split_8. cbn [bytes_less].
  rewrite !byte.unsigned_of_Z. unfold byte.wrap. change (2 ^ 8) with 256.
  rewrite Hlow.
  replace ((s + 1) mod 256) with 0; [reflexivity|].
  symmetry. rewrite <- Z.add_mod_idemp_l by lia. rewrite Hlow. reflexivity.
Qed.

Lemma Bytes_order_is_not_slot_order_witness :
  bytes_less
    (BlockSlotKey.Bytes
       {| BlockSlotKey.Slot := 256; BlockSlotKey.Root := Example_chain.rootA |})
    (BlockSlotKey.Bytes
       {| BlockSlotKey.Slot := 255; BlockSlotKey.Root := Example_chain.rootA |})
  = true.
Proof.
  apply (Bytes_order_is_not_slot_order Example_chain.rootA 255).
  - reflexivity.
  - lia.
  - unfold beacon.uint64_max. cbn. lia.
  - reflexivity.
Defined.

(** ** ProcessSlot *)

(** X7: [ProcessSlot] stops at the first call that fails and returns
    its error: the calls after it are not made, so that the recent roots
    are written only when the header update and both reads succeeded,
    and the state is the one the failing call left. *)
Theorem ProcessSlot_stops_at_first_error {S : Type} (meta : phase0.Meta S) (s : S)
  (r : beacon.Root) (s1 : S) :
  meta _ phase0.StateRoot s = (r, s1) ->
  (forall err s2,
     meta _ (phase0.UpdateLatestBlockStateRoot r) s1 = (Some err, s2) ->
     phase0.run meta phase0.ProcessSlot s
     = (Some err, s2, [phase0.Called phase0.StateRoot;
        phase0.Called (phase0.UpdateLatestBlockStateRoot r)])) /\
  (forall s2 err s3,
     meta _ (phase0.UpdateLatestBlockStateRoot r) s1 = (None, s2) ->
     meta _ phase0.GetLatestBlockRoot s2 = (inr err, s3) ->
     phase0.run meta phase0.ProcessSlot s
     = (Some err, s3, [phase0.Called phase0.StateRoot;
        phase0.Called (phase0.UpdateLatestBlockStateRoot r);
        phase0.Called phase0.GetLatestBlockRoot])) /\
  (forall s2 b s3 err s4,
     meta _ (phase0.UpdateLatestBlockStateRoot r) s1 = (None, s2) ->
     meta _ phase0.GetLatestBlockRoot s2 = (inl b, s3) ->
     meta _ phase0.CurrentSlot s3 = (inr err, s4) ->
     phase0.run meta phase0.ProcessSlot s
     = (Some err, s4, [phase0.Called phase0.StateRoot;
        phase0.Called (phase0.UpdateLatestBlockStateRoot r);
        phase0.Called phase0.GetLatestBlockRoot;
        phase0.Called phase0.CurrentSlot])).
Proof.
  intros H0. split; [|split].
  - intros err s2 H1. cbn [phase0.ProcessSlot phase0.run].
    rewrite H0, H1. reflexivity.
  - intros s2 err s3 H1 H2. cbn [phase0.ProcessSlot phase0.run].
    rewrite H0, H1. cbn [phase0.run]. rewrite H2. reflexivity.
  - intros s2 b s3 err s4 H1 H2 H3. cbn [phase0.ProcessSlot phase0.run].
    rewrite H0, H1. cbn [phase0.run]. rewrite H2. cbn [phase0.run].
    rewrite H3. reflexivity.
Qed.

Lemma ProcessSlot_stops_at_first_error_witness :
  (let '(res, s, tr) := phase0.run (phase0.example_meta 1) phase0.ProcessSlot [] in
   (res, s, List.length tr)) = (Some "header: no state"%string, [], 2%nat) /\
  (let '(res, s, tr) := phase0.run (phase0.example_meta 2) phase0.ProcessSlot [] in
   (res, s, List.length tr)) = (Some "header: no root"%string, [], 3%nat) /\
  (let '(res, s, tr) := phase0.run (phase0.example_meta 3) phase0.ProcessSlot [] in
   (res, s, List.length tr)) = (Some "no slot"%string, [], 4%nat).
Proof.
  split; [|split].
  - rewrite (proj1 (ProcessSlot_stops_at_first_error (phase0.example_meta 1) []
                      (Example_chain.root_of Byte.xd1) [] eq_refl)
               "header: no state"%string [] eq_refl).
    reflexivity.
  - rewrite (proj1 (proj2 (ProcessSlot_stops_at_first_error (phase0.example_meta 2) []
                             (Example_chain.root_of Byte.xd1) [] eq_refl))
               [] "header: no root"%string [] eq_refl eq_refl).
    reflexivity.
  - rewrite (proj2 (proj2 (ProcessSlot_stops_at_first_error (phase0.example_meta 3) []
                             (Example_chain.root_of Byte.xd1) [] eq_refl))
               [] (Example_chain.root_of Byte.xa1) [] "no slot"%string []
               eq_refl eq_refl eq_refl).
    reflexivity.
Defined.

(** X8: when the header update and the two reads succeed, [ProcessSlot]
    makes the five calls in order and returns what [SetRecentRoots]
    returns.  The state root it stores for the slot is the one it read
    first, before the header update, and the block root is the one read
    after that update. *)
Theorem ProcessSlot_complete_run {S : Type} (meta : phase0.Meta S)
  (s s1 s2 s3 s4 s5 : S) (r b : beacon.Root) (n : beacon.Slot)
  (res : option error) :
  meta _ phase0.StateRoot s = (r, s1) ->
  meta _ (phase0.UpdateLatestBlockStateRoot r) s1 = (None, s2) ->
  meta _ phase0.GetLatestBlockRoot s2 = (inl b, s3) ->
  meta _ phase0.CurrentSlot s3 = (inl n, s4) ->
  meta _ (phase0.SetRecentRoots n b r) s4 = (res, s5) ->
  phase0.run meta phase0.ProcessSlot s = (res, s5, phase0.all_calls r b n).
Proof.
  intros H0 H1 H2 H3 H4. cbn [phase0.ProcessSlot phase0.run].
  rewrite H0, H1. cbn [phase0.run]. rewrite H2. cbn [phase0.run].
  rewrite H3. cbn [phase0.run]. rewrite H4.
  destruct res; reflexivity.
Qed.

Lemma ProcessSlot_complete_run_witness :
  phase0.run (phase0.example_meta 0) phase0.ProcessSlot []
  = (None,
     [(101, Example_chain.root_of Byte.xa1, Example_chain.root_of Byte.xd1)],
     phase0.all_calls (Example_chain.root_of Byte.xd1)
       (Example_chain.root_of Byte.xa1) 101).
Proof.
  apply (ProcessSlot_complete_run (phase0.example_meta 0) [] [] [] [] []);
    reflexivity.
Defined.

(** ** Proposer slashings *)

Section Slashings.

Context {C : slashing.Collaborators}.

(** A slashing either passes every check and is handed to
    [SlashValidator], or fails one and leaves the state as it was. *)
Lemma ProcessProposerSlashing_cases (state : slashing.BeaconStateView)
  (epc : slashing.EpochsContext) (ps : slashing.ProposerSlashing) :
  (slashing.checks_pass state epc ps /\
   slashing.ProcessProposerSlashing state epc ps
   = slashing.SlashValidator state epc (slashing.ProposerIndex ps) None) \/
  (~ slashing.checks_pass state epc ps /\
   exists err : error,
     slashing.ProcessProposerSlashing state epc ps = (state, Some err)).
Proof.
  unfold slashing.ProcessProposerSlashing, slashing.checks_pass.
  destruct (slashing.Header_Slot (slashing.Message (slashing.SignedHeader1 ps))
            =? slashing.Header_Slot (slashing.Message (slashing.SignedHeader2 ps)))
    eqn:Hslot; cbn [negb].
  2:{ right. split; [|eexists; reflexivity].
      intros [Hs _]. apply Z.eqb_neq in Hslot. contradiction. }
  apply Z.eqb_eq in Hslot.
  destruct (slashing.Header_eqb (slashing.Message (slashing.SignedHeader1 ps))
              (slashing.Message (slashing.SignedHeader2 ps))) eqn:Heq.
  { right. split; [|eexists; reflexivity].
    intros (_ & Hne & _). apply slashing.Header_eqb_eq in Heq. contradiction. }
  assert (Hne : slashing.Message (slashing.SignedHeader1 ps)
                <> slashing.Message (slashing.SignedHeader2 ps)).
  { intros E. apply slashing.Header_eqb_eq in E. congruence. }
  cbn zeta.
  destruct (slashing.Validators state) as [validators|e] eqn:Hvs.
  2:{ right. split; [|eexists; reflexivity].
      intros (_ & _ & vs & v & d & pk & H & _). discriminate H. }
  destruct (slashing.Validator validators (slashing.ProposerIndex ps))
    as [validator|e] eqn:Hv.
  2:{ right. split; [|eexists; reflexivity].
      intros (_ & _ & vs & v & d & pk & H1 & H2 & _).
      injection H1 as <-. congruence. }
  destruct (slashing.IsSlashable validator (slashing.CurrentEpoch epc))
    as [[|]|e] eqn:Hsl.
  2:{ right. split; [|eexists; reflexivity].
      intros (_ & _ & vs & v & d & pk & H1 & H2 & H3 & _).
      injection H1 as <-. rewrite Hv in H2. injection H2 as <-. congruence. }
  2:{ right. split; [|eexists; reflexivity].
      intros (_ & _ & vs & v & d & pk & H1 & H2 & H3 & _).
      injection H1 as <-. rewrite Hv in H2. injection H2 as <-. congruence. }
  destruct (slashing.GetDomain state slashing.DOMAIN_BEACON_PROPOSER
              (slashing.ToEpoch
                 (slashing.Header_Slot (slashing.Message (slashing.SignedHeader1 ps)))))
    as [domain|e] eqn:Hd.
  2:{ right. split; [|eexists; reflexivity].
      intros (_ & _ & vs & v & d & pk & _ & _ & _ & H4 & _). discriminate H4. }
  destruct (slashing.Pubkey epc (slashing.ProposerIndex ps)) as [pubkey|] eqn:Hpk.
  2:{ right. split; [|eexists; reflexivity].
      intros (_ & _ & vs & v & d & pk & _ & _ & _ & _ & H5 & _). discriminate H5. }
  destruct (slashing.header_verifies pubkey domain (slashing.SignedHeader1 ps)) eqn:V1;
    cbn [negb].
  2:{ right. split; [|eexists; reflexivity].
      intros (_ & _ & vs & v & d & pk & _ & _ & _ & H4 & H5 & H6 & _).
      injection H4 as <-. injection H5 as <-. congruence. }
  destruct (slashing.header_verifies pubkey domain (slashing.SignedHeader2 ps)) eqn:V2;
    cbn [negb].
  2:{ right. split; [|eexists; reflexivity].
      intros (_ & _ & vs & v & d & pk & _ & _ & _ & H4 & H5 & _ & H7).
      injection H4 as <-. injection H5 as <-. congruence. }
  left. split; [|reflexivity].
  split; [exact Hslot|]. split; [exact Hne|].
  exists validators, validator, domain, pubkey. repeat split; assumption.
Qed.

(** X9: a slashing that [ProcessProposerSlashing] accepts (no error) has
    passed every check: the two headers are for one slot and differ, the
    proposer is a known, slashable validator with a known key, and both
    signatures verify; and the state is the one [SlashValidator] left. *)
Theorem slashing_accepted_is_valid (state : slashing.BeaconStateView)
  (epc : slashing.EpochsContext) (ps : slashing.ProposerSlashing) :
  snd (slashing.ProcessProposerSlashing state epc ps) = None ->
  slashing.checks_pass state epc ps /\
  slashing.ProcessProposerSlashing state epc ps
  = slashing.SlashValidator state epc (slashing.ProposerIndex ps) None.
Proof.
  intros Hok.
  destruct (ProcessProposerSlashing_cases state epc ps) as [H | [_ [err H]]].
  - exact H.
  - rewrite H in Hok. discriminate Hok.
Qed.

(** X10: a slashing that fails a check is rejected with an error and the
    state is left exactly as it was; the state changes only through
    [SlashValidator], which is called exactly when every check passes. *)
Theorem slashing_rejected_leaves_state (state : slashing.BeaconStateView)
  (epc : slashing.EpochsContext) (ps : slashing.ProposerSlashing) :
  (~ slashing.checks_pass state epc ps ->
   exists err : error,
     slashing.ProcessProposerSlashing state epc ps = (state, Some err)) /\
  (slashing.checks_pass state epc ps ->
   slashing.ProcessProposerSlashing state epc ps
   = slashing.SlashValidator state epc (slashing.ProposerIndex ps) None).
Proof.
  destruct (ProcessProposerSlashing_cases state epc ps) as [[Hp H] | [Hn H]]; split;
    intros H'; try assumption; contradiction.
Qed.

(** X11: processing a list of slashings in two parts is processing the
    first part and, if that raised no error, the second part from the
    state the first part left; the empty list changes nothing. *)
Theorem ProcessProposerSlashings_app (state : slashing.BeaconStateView)
  (epc : slashing.EpochsContext) (ops1 ops2 : list slashing.ProposerSlashing) :
  slashing.ProcessProposerSlashings state epc [] = (state, None) /\
  slashing.ProcessProposerSlashings state epc (ops1 ++ ops2)
  = match slashing.ProcessProposerSlashings state epc ops1 with
    | (state1, None) => slashing.ProcessProposerSlashings state1 epc ops2
    | (state1, Some err) => (state1, Some err)
    end.
Proof.
  split; [reflexivity|].
  revert state. induction ops1 as [|ps ops1 IH]; intros state.
  - reflexivity.
  - cbn [app slashing.ProcessProposerSlashings].
    destruct (slashing.ProcessProposerSlashing state epc ps) as [state' [err|]].
    + reflexivity.
    + apply IH.
Qed.

(** X12: the first slashing that fails ends the run with its error.  The
    slashings before it stay applied (nothing is rolled back), the
    failing one leaves the state they produced, and the slashings after
    it are not processed. *)
Theorem ProcessProposerSlashings_first_error (state state1 : slashing.BeaconStateView)
  (epc : slashing.EpochsContext) (ops1 ops2 : list slashing.ProposerSlashing)
  (ps : slashing.ProposerSlashing) :
  slashing.ProcessProposerSlashings state epc ops1 = (state1, None) ->
  ~ slashing.checks_pass state1 epc ps ->
  exists err : error,
    slashing.ProcessProposerSlashing state1 epc ps = (state1, Some err) /\
    slashing.ProcessProposerSlashings state epc (ops1 ++ ps :: ops2)
    = (state1, Some err).
Proof.
  intros H1 Hbad.
  destruct (ProcessProposerSlashing_cases state1 epc ps) as [[Hp _] | [_ [err H]]];
    [contradiction|].
  exists err. split; [exact H|].
  revert state H1. induction ops1 as [|p ops1 IH]; intros state H1.
  - cbn [slashing.ProcessProposerSlashings] in H1. injection H1 as ->.
    cbn [app slashing.ProcessProposerSlashings]. now rewrite H.
  - cbn [app slashing.ProcessProposerSlashings] in *.
    destruct (slashing.ProcessProposerSlashing state epc p) as [state' [e|]].
    + discriminate H1.
    + now apply IH.
Qed.

End Slashings.

Lemma slashing_accepted_is_valid_witness :
  slashing.ProcessProposerSlashing (C := slashing.example) [] tt (slashing.example_slashing 1 true true)
  = ([1], None).
Proof.
  destruct (slashing_accepted_is_valid (C := slashing.example) [] tt (slashing.example_slashing 1 true true))
    as [_ H].
  - reflexivity.
  - rewrite H. reflexivity.
Defined.

Lemma bad_signature_fails_checks (state : list Z) (i : Z) (ok1 : bool) :
  ~ slashing.checks_pass (C := slashing.example) state tt
      (slashing.example_slashing i ok1 false).
Proof.
  intros (_ & _ & vs & v & d & pk & _ & _ & _ & _ & _ & _ & H).
  cbn in H. discriminate H.
Defined.

Lemma slashing_rejected_leaves_state_witness :
  (exists err : error,
     slashing.ProcessProposerSlashing (C := slashing.example) [4] tt (slashing.example_slashing 1 true false)
     = ([4], Some err)) /\
  slashing.ProcessProposerSlashing (C := slashing.example) [4] tt (slashing.example_slashing 1 true true)
  = ([1; 4], None).
Proof.
  destruct (slashing_rejected_leaves_state (C := slashing.example) [4] tt (slashing.example_slashing 1 true false))
    as [Hbad _].
  destruct (slashing_rejected_leaves_state (C := slashing.example) [4] tt (slashing.example_slashing 1 true true))
    as [_ Hgood].
  split.
  - apply Hbad. apply bad_signature_fails_checks.
  - rewrite Hgood; [reflexivity|].
    split; [reflexivity|]. split; [discriminate|].
    exists [4], true, tt, 1. repeat split.
Defined.

Lemma ProcessProposerSlashings_first_error_witness :
  exists err : error,
    slashing.ProcessProposerSlashings (C := slashing.example) [] tt
      [slashing.example_slashing 1 true true;
       slashing.example_slashing 1 true true;
       slashing.example_slashing 2 true true]
    = ([1], Some err).
Proof.
  destruct (ProcessProposerSlashings_first_error (C := slashing.example) [] [1] tt
              [slashing.example_slashing 1 true true]
              [slashing.example_slashing 2 true true]
              (slashing.example_slashing 1 true true)) as (err & _ & H).
  - reflexivity.
  - intros (_ & _ & vs & v & d & pk & H1 & H2 & H3 & _).
    cbn in H1. injection H1 as <-.
    cbn in H2. injection H2 as <-.
    cbn in H3. discriminate H3.
  - exists err. exact H.
Defined.

(** ** ExecutionPayloadHeaderView.Raw *)

Section Raw.

Context {V : merge.Views}.

(** X13: [Raw] returns the error of [FieldValues], or an error that
    gives the number of fields when that number is not 9.  With 9
    fields it reports no error at all: whatever the conversions of the
    fields report is dropped, and the call either panics on a nil bloom
    pointer or returns a header with a nil error. *)
Theorem Raw_reports_no_conversion_error (values : list merge.View) :
  (forall e : error, merge.Raw (values, Some e) = merge.Returns (None, Some e)) /\
  (List.length values <> 9%nat ->
   merge.Raw (values, None)
   = merge.Returns (None, Some (merge.field_count_error (List.length values)))) /\
  (List.length values = 9%nat ->
   merge.Raw (values, None) = merge.Panics \/
   exists h : merge.ExecutionPayloadHeader,
     merge.Raw (values, None) = merge.Returns (Some h, None)).
Proof.
  split; [reflexivity|]. split.
  - intros Hlen. unfold merge.Raw.
    apply Nat.eqb_neq in Hlen. now rewrite Hlen.
  - intros Hlen.
    do 9 (destruct values as [|? values]; [discriminate Hlen|]).
    destruct values; [|discriminate Hlen].
    unfold merge.Raw. cbn [List.length Nat.eqb negb].
    repeat match goal with
           | |- context [let '(_, _) := ?x in _] => destruct x as [? ?]
           end.
    match goal with
    | |- context [match ?o with Some _ => _ | None => _ end] => destruct o as [bloom|]
    end.
    + right. eexists. reflexivity.
    + left. reflexivity.
Qed.

End Raw.

Lemma Raw_reports_no_conversion_error_witness :
  merge.Raw (V := merge.example) ([1; 2; 3], None)
  = merge.Returns
      (None, Some "unexpected number of execution payload header fields: 3"%string) /\
  snd (merge.AsRoot (Views := merge.example) (-1) None) = Some "not a root view"%string /\
  exists h : merge.ExecutionPayloadHeader,
    merge.Raw (V := merge.example) ([1; 2; 3; 4; 5; 6; 7; 8; -1], None) = merge.Returns (Some h, None).
Proof.
  split; [|split].
  - apply (proj1 (proj2 (Raw_reports_no_conversion_error (V := merge.example) [1; 2; 3]))).
    cbn. lia.
  - reflexivity.
  - destruct (proj2 (proj2 (Raw_reports_no_conversion_error (V := merge.example)
                              [1; 2; 3; 4; 5; 6; 7; 8; -1])) eq_refl)
      as [Hpanic | H].
    + hnf in Hpanic. discriminate Hpanic.
    + exact H.
Defined.
